(** * BiFPN (efficientdet/bifpn.py): a shallow embedding and its properties

    The module is glue code over TensorFlow/Keras: four classes ([Resize],
    [FastFusion], [BiFPNBlock], [BiFPN]) that index Python lists, call layers
    and combine feature maps.  The embedding keeps that glue as it is written:

    - Python sequences are lists; a mutable Python list lives in a heap and is
      passed by reference, so the in-place write of [FastFusion.call] is
      visible to whoever holds the list;
    - Python and framework failures are values of [exn], returned through
      [result];
    - a feature map is a nested list batch x height x width x channels of
      float32 numbers: IEEE 754 binary32 values with the operations of the
      Standard Library's [SpecFloat] (24 bits of precision, rounding to
      nearest even, signed zeros, infinities and NaN);
    - a Keras layer is its forward function together with the part of its
      configuration the code relies on; [tf.image.resize] is a parameter of
      the development, known only through its shape contract. *)

From Stdlib Require Import ZArith Lia.
From Stdlib Require Import Floats.SpecFloat.
From stdpp Require Import gmap list strings.

Set Default Proof Using "Type".

(** ** Python runtime: exceptions and results *)

Inductive exn : Type :=
  | IndexError        (* sequence index out of range *)
  | ValueError        (* wrong number of values to unpack *)
  | TypeError         (* a call that does not match the callee's signature *)
  | RuntimeError      (* Keras: attribute set before [super().__init__()] *)
  | ShapeError        (* the framework rejects the shapes it is given *)
  | DanglingReference (* a location that is not in the heap; never produced by
                         the embedded code, it makes [load] total *).

Inductive result (A : Type) : Type :=
  | Ok (a : A)
  | Raise (e : exn).
Arguments Ok {A} a.
Arguments Raise {A} e.

#[global] Instance result_ret : MRet result := fun _ a => Ok a.
#[global] Instance result_bind : MBind result := fun _ _ f m =>
  match m with
  | Ok a => f a
  | Raise e => Raise e
  end.

Definition raises {A} (r : result A) : Prop :=
  match r with
  | Ok _ => False
  | Raise _ => True
  end.

(** ** Python sequences *)

(** [xs[i]] for a Python int [i]: negative indices count from the end. *)
Definition py_norm_index (n : nat) (i : Z) : option nat :=
  let j := if (i <? 0)%Z then (i + Z.of_nat n)%Z else i in
  if ((0 <=? j)%Z && (j <? Z.of_nat n)%Z)%bool then Some (Z.to_nat j) else None.

Definition py_getitem {A} (xs : list A) (i : Z) : result A :=
  match py_norm_index (length xs) i with
  | Some j =>
      match xs !! j with
      | Some x => Ok x
      | None => Raise IndexError
      end
  | None => Raise IndexError
  end.

(** [xs[i] = v]: the list after the assignment. *)
Definition py_setitem {A} (xs : list A) (i : Z) (v : A) : result (list A) :=
  match py_norm_index (length xs) i with
  | Some j => Ok (<[j:=v]> xs)
  | None => Raise IndexError
  end.

(** [xs[lo:hi]] for non-negative literal bounds. *)
Definition py_slice {A} (xs : list A) (lo hi : nat) : list A :=
  take (hi - lo) (drop lo xs).

(** [range(n)] for a Python int [n]: empty when [n <= 0]. *)
Definition py_range (n : Z) : list nat := seq 0 (Z.to_nat n).

(** ** Scalars and feature maps *)

(** The entries of a tensor of dtype [tf.float32]. *)
Definition prec32 : Z := 24.
Definition emax32 : Z := 128.

Definition float32 : Type := spec_float.

Definition f32_add : float32 → float32 → float32 := SFadd prec32 emax32.
Definition f32_mul : float32 → float32 → float32 := SFmul prec32 emax32.
Definition f32_div : float32 → float32 → float32 := SFdiv prec32 emax32.
Definition f32_ltb : float32 → float32 → bool := SFltb.
Definition f32_leb : float32 → float32 → bool := SFleb.

Definition f32_zero : float32 := S754_zero false.

(** The float32 nearest to [m * 2^e]. *)
Definition f32 (m e : Z) : float32 := binary_normalize prec32 emax32 m e false.

Definition f32_is_nan (x : float32) : bool :=
  match x with
  | S754_nan => true
  | _ => false
  end.

Definition f32_is_zero (x : float32) : bool :=
  match x with
  | S754_zero _ => true
  | _ => false
  end.

(** Neither infinite nor NaN. *)
Definition f32_is_finite (x : float32) : bool :=
  match x with
  | S754_zero _ | S754_finite _ _ _ => true
  | _ => false
  end.

(** A zero, a positive number or plus infinity. *)
Definition f32_nonneg (x : float32) : bool :=
  match x with
  | S754_zero _ | S754_infinity false | S754_finite false _ _ => true
  | _ => false
  end.

(** [EPSILON = 1e-5].  The Python float is converted to the dtype of the
    tensor it is added to: the float32 nearest to 1/100000, which is
    10995116 * 2^-40. *)
Definition EPSILON : float32 := S754_finite false 10995116 (-40).

Definition Pixel : Type := list float32.   (* channels *)
Definition Row : Type := list Pixel.       (* width x channels *)
Definition Image : Type := list Row.       (* height x width x channels *)
Definition Tensor : Type := list Image.    (* batch x height x width x channels *)
Definition Tensor5 : Type := list Tensor.  (* one more leading axis *)

(** [x.shape] of a 4-axis tensor, read off the nested list. *)
Definition tshape (x : Tensor) : list nat :=
  let im := default [] (head x) in
  let r := default [] (head im) in
  let p := default [] (head r) in
  [length x; length im; length r; length p].

(** [x] is a rectangular array of shape (b, h, w, c). *)
Definition has_shape (b h w c : nat) (x : Tensor) : Prop :=
  length x = b ∧
  Forall (λ im : Image, length im = h ∧
    Forall (λ r : Row, length r = w ∧
      Forall (λ p : Pixel, length p = c) r) im) x.

(** Elementwise operations. *)
Definition tmap (f : float32 → float32) (x : Tensor) : Tensor :=
  fmap (M:=list) (fmap (M:=list) (fmap (M:=list) (fmap (M:=list) f))) x.

(** [c * x] for a scalar [c]. *)
Definition tscale (c : float32) (x : Tensor) : Tensor := tmap (f32_mul c) x.

(** [x / s] for a scalar [s]. *)
Definition tdiv (x : Tensor) (s : float32) : Tensor :=
  tmap (λ v, f32_div v s) x.

Definition iadd : Image → Image → Image :=
  zip_with (zip_with (zip_with f32_add)).

Definition tadd : Tensor → Tensor → Tensor := zip_with iadd.

(** Zeros in the shape of an image, and of a feature map. *)
Definition izeros_like (im : Image) : Image :=
  fmap (M:=list) (fmap (M:=list) (fmap (M:=list) (λ _, f32_zero))) im.

Definition tzeros_like (x : Tensor) : Tensor := izeros_like <$> x.

(** A sum reduction: the accumulator starts at zero and the elements are
    added in index order, [((0 + x0) + x1) + ...]; [d] when there is no
    element to take the shape from. *)
Definition sum_with {A} (add : A → A → A) (zeros_like : A → A) (d : A)
    (l : list A) : A :=
  match l with
  | [] => d
  | x :: _ => foldl add (zeros_like x) l
  end.

(** The elementwise sum of a list of feature maps. *)
Definition tensor_sum (ts : list Tensor) : Tensor :=
  sum_with tadd tzeros_like [] ts.

(** ** TensorFlow operations used by the module *)

(** [Activation('relu')] on one entry: zero for a negative entry, the entry
    itself otherwise, so that NaN stays NaN. *)
Definition relu (v : float32) : float32 :=
  if f32_ltb v f32_zero then f32_zero else v.

(** [tf.reduce_sum] of a vector, accumulated from zero in index order. *)
Definition tf_reduce_sum (w : list float32) : float32 :=
  foldl f32_add f32_zero w.

(** [tf.range(n)]. *)
Definition tf_range (n : nat) : list nat := seq 0 n.

(** [w[i]] on a vector tensor. *)
Definition tf_getitem (w : list float32) (i : nat) : result float32 :=
  match w !! i with
  | Some v => Ok v
  | None => Raise ShapeError
  end.

Definition shape_eqb (s1 s2 : list nat) : bool := bool_decide (s1 = s2).

(** Stacking along a new leading axis: every element must have the shape of
    the first one.  Stacking nothing gives the empty vector. *)
Definition tf_stack (ts : list Tensor) : result Tensor5 :=
  match ts with
  | [] => Ok []
  | t :: _ =>
      if forallb (λ t', shape_eqb (tshape t) (tshape t')) ts
      then Ok ts else Raise ShapeError
  end.

(** Exchange of the two outer levels of a nested list with rows of length
    [n]. *)
Fixpoint transpose01 {A} (n : nat) (xss : list (list A)) : list (list A) :=
  match xss with
  | [] => replicate n []
  | xs :: xss' => zip_with cons xs (transpose01 n xss')
  end.

(** [tf.transpose(t, [1, 0, 2, 3, 4])].  The permutation has five entries, so
    the empty vector (rank 1) that stacking nothing produces is rejected. *)
Definition tf_transpose_10234 (t : Tensor5) : result Tensor5 :=
  match t with
  | [] => Raise ShapeError
  | x :: _ => Ok (transpose01 (length x) t)
  end.

(** [tf.reduce_sum(t, axis=1)] on a 5-axis tensor. *)
Definition tf_reduce_sum_axis1 (t : Tensor5) : Tensor :=
  fmap (M:=list) (sum_with iadd izeros_like []) t.

(** ** Keras layers *)

(** A convolution layer ([Conv2D] or [SeparableConv2D]): its configuration
    and its forward function with the current kernels. *)
Record Conv : Type := {
  conv_separable : bool;
  conv_filters : nat;
  conv_kernel_size : nat;
  conv_fwd : Tensor → Tensor
}.

(** [BatchNormalization]: its forward function with the current statistics
    and parameters. *)
Record BatchNorm : Type := {
  bn_fwd : Tensor → Tensor
}.

(** Shape contracts of the layers.  A convolution with a 1x1 kernel keeps
    batch, height and width and produces [filters] channels; batch
    normalisation keeps the shape. *)
Definition Conv_ok (c : Conv) : Prop :=
  ∀ b h w ch x, has_shape b h w ch x →
    has_shape b h w (conv_filters c) (conv_fwd c x).

Definition BatchNorm_ok (n : BatchNorm) : Prop :=
  ∀ b h w ch x, has_shape b h w ch x → has_shape b h w ch (bn_fwd n x).

(** ** The heap of Python lists *)

Abbreviation loc := nat (only parsing).
Abbreviation Heap := (gmap nat (list Tensor)) (only parsing).

(** Computations that read and write the heap and may raise. *)
Definition M (A : Type) : Type := Heap → result (A * Heap).

#[global] Instance M_ret : MRet M := fun _ a h => Ok (a, h).
#[global] Instance M_bind : MBind M := fun _ _ f m h =>
  match m h with
  | Ok (a, h') => f a h'
  | Raise e => Raise e
  end.

Definition lift {A} (r : result A) : M A := fun h =>
  match r with
  | Ok a => Ok (a, h)
  | Raise e => Raise e
  end.

Definition load (l : loc) : M (list Tensor) := fun h =>
  match h !! l with
  | Some xs => Ok (xs, h)
  | None => Raise DanglingReference
  end.

Definition store (l : loc) (xs : list Tensor) : M unit := fun h =>
  Ok (tt, <[l:=xs]> h).

(** A list display [[a, b, ...]] creates a new list object. *)
Definition alloc (xs : list Tensor) : M loc := fun h =>
  let l := fresh (dom h) in Ok (l, <[l:=xs]> h).

(** The value of a computation, without the final heap. *)
Definition value {A} (r : result (A * Heap)) : result A :=
  match r with
  | Ok (a, _) => Ok a
  | Raise e => Raise e
  end.

(** [tf.map_fn(fn, elems)]: [fn] is run on each element in turn and the
    results are stacked. *)
Definition tf_map_fn (fn : nat → M Tensor) (elems : list nat) : M Tensor5 :=
  ys ← mapM fn elems; lift (tf_stack ys).

(** ** Calls: binding the arguments of a call to a signature *)

(** The parameters of a callable: those without a default, in order, then
    those with one, and whether it ends in [**kwargs]. *)
Record signature : Type := {
  sig_required : list string;
  sig_optional : list string;
  sig_kwargs : bool
}.

Definition sig_params (sig : signature) : list string :=
  sig_required sig ++ sig_optional sig.

(** Python's binding of [npos] positional arguments and the given keyword
    arguments; each failure is a [TypeError]. *)
Definition bind_arguments (sig : signature) (npos : nat)
    (keywords : list string) : result unit :=
  let by_position := take npos (sig_params sig) in
  if bool_decide (length (sig_params sig) < npos)
  then Raise TypeError      (* too many positional arguments *)
  else if bool_decide (Exists (λ k, k ∈ by_position) keywords)
  then Raise TypeError      (* multiple values for one parameter *)
  else if negb (sig_kwargs sig) &&
          bool_decide (Exists (λ k, k ∉ sig_params sig) keywords)
  then Raise TypeError      (* unexpected keyword argument *)
  else if bool_decide
            (Exists (λ p, (p ∉ by_position) ∧ (p ∉ keywords))
               (sig_required sig))
  then Raise TypeError      (* missing required argument *)
  else Ok tt.

(** The value bound to parameter [name]. *)
Definition bound_argument (sig : signature) (args : list nat)
    (kwargs : list (string * nat)) (name : string) : result nat :=
  match list_find (λ p, p = name) (sig_params sig) with
  | Some (i, _) =>
      match args !! i with
      | Some v => Ok v
      | None =>
          match list_find (λ kv, kv.1 = name) kwargs with
          | Some (_, (_, v)) => Ok v
          | None => Raise TypeError
          end
      end
  | None => Raise TypeError
  end.

(** ** The framework *)

(** What the module takes from TensorFlow/Keras beyond the operations
    defined above. *)
Class Framework : Type := {
  (** [tf.image.resize(images, size)], bilinear by default *)
  image_resize : Tensor → list nat → Tensor;
  (** [tf.random_normal_initializer()((n,))] *)
  random_normal : nat → list float32;
  (** the layer a convolution constructor returns when it accepts its
      arguments: separable or not, filters, kernel size *)
  new_conv : bool → nat → nat → Conv;
  (** [tf.keras.layers.BatchNormalization()] *)
  new_batch_norm : BatchNorm
}.

(** The contract of [tf.image.resize]: an image batch with positive height
    and width, resized to a positive [size = [h; w]], has height [h] and
    width [w]; batch and channels are kept. *)
Definition image_resize_ok {fw : Framework} : Prop :=
  ∀ b h0 w0 c h w x, has_shape b h0 w0 c x →
    1 ≤ h0 → 1 ≤ w0 → 1 ≤ h → 1 ≤ w →
    has_shape b h w c (image_resize x [h; w]).

(** Signatures of the Keras constructors the module calls. *)
Definition Conv2D_signature : signature := {|
  sig_required := ["filters"; "kernel_size"];
  sig_optional := ["strides"; "padding"; "data_format"; "dilation_rate";
    "groups"; "activation"; "use_bias"; "kernel_initializer";
    "bias_initializer"; "kernel_regularizer"; "bias_regularizer";
    "activity_regularizer"; "kernel_constraint"; "bias_constraint"];
  sig_kwargs := true
|}.

Definition SeparableConv2D_signature : signature := {|
  sig_required := ["filters"; "kernel_size"];
  sig_optional := ["strides"; "padding"; "data_format"; "dilation_rate";
    "depth_multiplier"; "activation"; "use_bias"; "depthwise_initializer";
    "pointwise_initializer"; "bias_initializer"; "depthwise_regularizer";
    "pointwise_regularizer"; "bias_regularizer"; "activity_regularizer";
    "depthwise_constraint"; "pointwise_constraint"; "bias_constraint"];
  sig_kwargs := true
|}.

(** Keyword arguments that the base [Layer] understands in [**kwargs]; any
    other one is a [TypeError]. *)
Definition Layer_kwargs : list string :=
  ["input_dim"; "input_shape"; "batch_input_shape"; "batch_size"; "weights";
   "activity_regularizer"; "autocast"; "implementation"; "name"; "trainable";
   "dtype"; "dynamic"].

(** [Model.__setattr__]: a layer or a variable can be assigned to an
    attribute only after [super().__init__()] has run. *)
Definition setattr_tracked (base_initialized : bool) : result unit :=
  if base_initialized then Ok tt else Raise RuntimeError.

(** ** The classes of bifpn.py *)

Record Resize : Type := {
  pixel_wise : Conv
}.

(** [self.relu] is [Activation('relu')], a layer without state: it is the
    function [relu] and needs no field. *)
Record FastFusion : Type := {
  size : nat;
  w : list float32;
  conv : Conv;
  bn : BatchNorm;
  resize : Resize
}.

Record BiFPNBlock : Type := {
  ff_6_td : FastFusion;
  ff_5_td : FastFusion;
  ff_4_td : FastFusion;
  ff_7_out : FastFusion;
  ff_6_out : FastFusion;
  ff_5_out : FastFusion;
  ff_4_out : FastFusion;
  ff_3_out : FastFusion
}.

Record BiFPN : Type := {
  blocks : list BiFPNBlock
}.

Section Model.

Context {fw : Framework}.

(** A call of a convolution constructor with positional and keyword
    arguments. *)
Definition conv_constructor (separable : bool) (sig : signature)
    (args : list nat) (kwargs : list (string * nat)) : result Conv :=
  bind_arguments sig (length args) kwargs.*1;;
  filters ← bound_argument sig args kwargs "filters";
  kernel_size ← bound_argument sig args kwargs "kernel_size";
  (if bool_decide
        (Forall (λ k, k ∈ sig_params sig ∨ k ∈ Layer_kwargs) kwargs.*1)
   then Ok tt else Raise TypeError);;
  Ok (new_conv separable filters kernel_size).

Definition Conv2D := conv_constructor false Conv2D_signature.
Definition SeparableConv2D := conv_constructor true SeparableConv2D_signature.

(** *** Resize *)

(** [Resize.__init__(self, features, separable=False)].  There is no call
    of [super().__init__()]. *)
Definition Resize_init (features : nat) (separable : bool) : result Resize :=
  let base_initialized := false in
  let conv_cls := if separable then SeparableConv2D else Conv2D in
  pixel_wise ← conv_cls [features] [("kernel", 1)];
  setattr_tracked base_initialized;;
  Ok {| pixel_wise := pixel_wise |}.

(** [Resize.call(self, images, target_dim)] *)
Definition Resize_call (self : Resize) (images : Tensor)
    (target_dim : list nat) : Tensor :=
  let dims := py_slice target_dim 1 3 in
  let x := image_resize images dims in
  conv_fwd (pixel_wise self) x.

(** *** FastFusion *)

(** [FastFusion.__init__(self, size, features)] *)
Definition FastFusion_init (size features : nat) : result FastFusion :=
  let base_initialized := true in
  let w_init := random_normal in
  let w := w_init size in
  setattr_tracked base_initialized;;
  conv ← SeparableConv2D [features] [("kernel_size", 1)];
  setattr_tracked base_initialized;;
  let bn := new_batch_norm in
  setattr_tracked base_initialized;;
  resize ← Resize_init features false;
  setattr_tracked base_initialized;;
  Ok {| size := size; w := w; conv := conv; bn := bn; resize := resize |}.

(** [FastFusion.call(self, inputs)]; [inputs] is a reference to the
    caller's list. *)
Definition FastFusion_call (self : FastFusion) (inputs : loc) : M Tensor :=
  xs ← load inputs;
  last ← lift (py_getitem xs (-1));
  first ← lift (py_getitem xs 0);
  let resized := Resize_call (resize self) last (tshape first) in
  xs' ← lift (py_setitem xs (-1) resized);
  store inputs xs';;
  let w := relu <$> w self in
  let w_sum := f32_add EPSILON (tf_reduce_sum w) in
  weighted_sum ← tf_map_fn (λ i,
                    wi ← lift (tf_getitem w i);
                    cur ← load inputs;
                    xi ← lift (py_getitem cur (Z.of_nat i));
                    mret (tscale wi xi)) (tf_range (size self));
  weighted_sum ← lift (tf_transpose_10234 weighted_sum);
  let weighted_sum := tf_reduce_sum_axis1 weighted_sum in
  let fusioned_features := conv_fwd (conv self) (tdiv weighted_sum w_sum) in
  let fusioned_features := bn_fwd (bn self) fusioned_features in
  mret (tmap relu fusioned_features).

(** *** BiFPNBlock *)

(** [BiFPNBlock.__init__(self, features)] *)
Definition BiFPNBlock_init (features : nat) : result BiFPNBlock :=
  ff_6_td ← FastFusion_init 2 features;
  ff_5_td ← FastFusion_init 2 features;
  ff_4_td ← FastFusion_init 2 features;
  ff_7_out ← FastFusion_init 2 features;
  ff_6_out ← FastFusion_init 3 features;
  ff_5_out ← FastFusion_init 3 features;
  ff_4_out ← FastFusion_init 3 features;
  ff_3_out ← FastFusion_init 2 features;
  Ok {| ff_6_td := ff_6_td; ff_5_td := ff_5_td; ff_4_td := ff_4_td;
        ff_7_out := ff_7_out; ff_6_out := ff_6_out; ff_5_out := ff_5_out;
        ff_4_out := ff_4_out; ff_3_out := ff_3_out |}.

(** [BiFPNBlock._resize(self, im, dims)] *)
Definition BiFPNBlock_resize (self : BiFPNBlock) (im : Tensor)
    (dims : list nat) : Tensor :=
  let dims := py_slice dims 1 3 in
  image_resize im dims.

(** [BiFPNBlock.call(self, inputs)].  [inputs] is only unpacked, never
    written, so it is taken by value; the result is the 5-tuple, as a
    sequence.  Every list display allocates a new list. *)
Definition BiFPNBlock_call (self : BiFPNBlock) (inputs : list Tensor)
    : M (list Tensor) :=
  match inputs with
  | [P3; P4; P5; P6; P7] =>
      P6_td ← alloc [P6; P7] ≫= FastFusion_call (ff_6_td self);
      P5_td ← alloc [P5; P6_td] ≫= FastFusion_call (ff_5_td self);
      P4_td ← alloc [P4; P5_td] ≫= FastFusion_call (ff_4_td self);
      P3_out ← alloc [P3; P4_td] ≫= FastFusion_call (ff_3_out self);
      P4_out ← alloc [P4; P4_td; P3_out] ≫= FastFusion_call (ff_4_out self);
      P5_out ← alloc [P5; P5_td; P4_out] ≫= FastFusion_call (ff_5_out self);
      P6_out ← alloc [P6; P6_td; P5_out] ≫= FastFusion_call (ff_6_out self);
      P7_out ← alloc [P7; P6_td] ≫= FastFusion_call (ff_7_out self);
      mret [P3_out; P4_out; P5_out; P6_out; P7_out]
  | _ => lift (Raise ValueError)
  end.

(** *** BiFPN *)

(** [BiFPN.__init__(self, features=64, n_blocks=3)] *)
Definition BiFPN_init (features : nat) (n_blocks : Z) : result BiFPN :=
  blocks ← mapM (λ i, BiFPNBlock_init features) (py_range n_blocks);
  Ok {| blocks := blocks |}.

(** The loop [for block in self.blocks: x = block(x)]. *)
Fixpoint BiFPN_loop (blocks : list BiFPNBlock) (x : list Tensor)
    : M (list Tensor) :=
  match blocks with
  | [] => mret x
  | block :: blocks' => x' ← BiFPNBlock_call block x; BiFPN_loop blocks' x'
  end.

(** [BiFPN.call(self, inputs)] *)
Definition BiFPN_call (self : BiFPN) (inputs : list Tensor)
    : M (list Tensor) :=
  let x := inputs in
  BiFPN_loop (blocks self) x.

End Model.

(** ** The design in the words of the specification *)

Section Design.

Context {fw : Framework}.

(** The inputs after the last one has been resized to the first input's
    spatial dimensions. *)
Definition aligned_inputs (self : FastFusion) (xs : list Tensor)
    : list Tensor :=
  match xs, last xs with
  | first :: _, Some lastx =>
      <[length xs - 1 := Resize_call (resize self) lastx (tshape first)]> xs
  | _, _ => xs
  end.

(** A feature map: a rectangular array whose four dimensions are
    positive. *)
Definition feature_map (x : Tensor) : Prop :=
  ∃ b h w c, 1 ≤ b ∧ 1 ≤ h ∧ 1 ≤ w ∧ 1 ≤ c ∧ has_shape b h w c x.

(** Each activated weight divided by the sum of all activated weights plus
    the stabilising constant. *)
Definition normalized_weights (self : FastFusion) : list float32 :=
  let a := relu <$> w self in
  (λ wi, f32_div wi (f32_add EPSILON (tf_reduce_sum a))) <$> a.

(** The fusion with the weights normalised first:
    relu(bn(conv(sum over i of normalized weight i times x_i))). *)
Definition weighted_fusion (self : FastFusion) (xs : list Tensor) : Tensor :=
  tmap relu (bn_fwd (bn self) (conv_fwd (conv self)
    (tensor_sum (zip_with tscale (normalized_weights self) xs)))).

Definition FastFusion_spec (self : FastFusion) (xs : list Tensor) : Tensor :=
  weighted_fusion self (aligned_inputs self xs).

(** The fusion with one division after the sum:
    relu(bn(conv((sum over i of relu(w_i) * x_i) /
                 (EPSILON + sum over j of relu(w_j))))). *)
Definition divided_fusion (self : FastFusion) (xs : list Tensor) : Tensor :=
  let a := relu <$> w self in
  tmap relu (bn_fwd (bn self) (conv_fwd (conv self)
    (tdiv (tensor_sum (zip_with tscale a xs))
          (f32_add EPSILON (tf_reduce_sum a))))).

(** A fusion unit applied to feature maps: the unit called on a new list
    that holds them. *)
Definition FastFusion_apply (self : FastFusion) (xs : list Tensor)
    : result Tensor :=
  value ((alloc xs ≫= FastFusion_call self) ∅).

(** The dataflow of one block: the top-down stage, then the bottom-up
    stage, then the ordered output. *)
Definition BiFPNBlock_spec (self : BiFPNBlock) (P3 P4 P5 P6 P7 : Tensor)
    : result (list Tensor) :=
  P6_td ← FastFusion_apply (ff_6_td self) [P6; P7];
  P5_td ← FastFusion_apply (ff_5_td self) [P5; P6_td];
  P4_td ← FastFusion_apply (ff_4_td self) [P4; P5_td];
  P3_out ← FastFusion_apply (ff_3_out self) [P3; P4_td];
  P4_out ← FastFusion_apply (ff_4_out self) [P4; P4_td; P3_out];
  P5_out ← FastFusion_apply (ff_5_out self) [P5; P5_td; P4_out];
  P6_out ← FastFusion_apply (ff_6_out self) [P6; P6_td; P5_out];
  P7_out ← FastFusion_apply (ff_7_out self) [P7; P6_td];
  Ok [P3_out; P4_out; P5_out; P6_out; P7_out].

(** The blocks composed from left to right, each output feeding the next
    block. *)
Definition sequential_composition (bs : list BiFPNBlock)
    (x : list Tensor) : M (list Tensor) :=
  foldl (λ acc block, acc ≫= BiFPNBlock_call block) (mret x) bs.

(** The steps of [FastFusion.call] on the contents of the list: the
    output and the list as the call leaves it. *)
Definition FastFusion_eval (self : FastFusion) (xs : list Tensor)
    : result (Tensor * list Tensor) :=
  lastx ← py_getitem xs (-1);
  first ← py_getitem xs 0;
  xs' ← py_setitem xs (-1) (Resize_call (resize self) lastx (tshape first));
  let a := relu <$> w self in
  elems ← mapM (λ i,
             wi ← tf_getitem a i;
             xi ← py_getitem xs' (Z.of_nat i);
             Ok (tscale wi xi)) (tf_range (size self));
  stacked ← tf_stack elems;
  transposed ← tf_transpose_10234 stacked;
  Ok (tmap relu (bn_fwd (bn self) (conv_fwd (conv self)
        (tdiv (tf_reduce_sum_axis1 transposed)
              (f32_add EPSILON (tf_reduce_sum a))))), xs').

(** What [FastFusion.__init__(size, features)] sets up, with layers that
    respect their shape contracts. *)
Definition FastFusion_ok (n features : nat) (self : FastFusion) : Prop :=
  size self = n ∧ length (w self) = n ∧
  Conv_ok (conv self) ∧ conv_filters (conv self) = features ∧
  BatchNorm_ok (bn self) ∧
  Conv_ok (pixel_wise (resize self)) ∧
  conv_filters (pixel_wise (resize self)) = features.

(** What [BiFPNBlock.__init__(features)] sets up. *)
Definition BiFPNBlock_ok (features : nat) (self : BiFPNBlock) : Prop :=
  FastFusion_ok 2 features (ff_6_td self) ∧
  FastFusion_ok 2 features (ff_5_td self) ∧
  FastFusion_ok 2 features (ff_4_td self) ∧
  FastFusion_ok 2 features (ff_7_out self) ∧
  FastFusion_ok 3 features (ff_6_out self) ∧
  FastFusion_ok 3 features (ff_5_out self) ∧
  FastFusion_ok 3 features (ff_4_out self) ∧
  FastFusion_ok 2 features (ff_3_out self).

(** A pyramid for a block with [features] channels: one feature map per
    entry of [dims], with that height and width, batch size [b]. *)
Definition pyramid_ok (b features : nat) (dims : list (nat * nat))
    (xs : list Tensor) : Prop :=
  Forall2 (λ x d, has_shape b d.1 d.2 features x) xs dims.

End Design.

(** ** A small executable framework

    Nearest-neighbour resampling for [tf.image.resize], convolutions whose
    kernels are all ones, batch normalisation with the identity statistics.
    It serves to run the module on concrete feature maps. *)

Definition resample {A} (d : A) (n : nat) (l : list A) : list A :=
  (λ i, default d (l !! (i * length l / n))) <$> seq 0 n.

Definition nearest_resize (x : Tensor) (size : list nat) : Tensor :=
  match size with
  | [h; w] => (λ im : Image, resample [] h (resample [] w <$> im)) <$> x
  | _ => x
  end.

Definition ones_conv (separable : bool) (filters kernel_size : nat) : Conv := {|
  conv_separable := separable;
  conv_filters := filters;
  conv_kernel_size := kernel_size;
  conv_fwd := fmap (M:=list) (fmap (M:=list) (fmap (M:=list)
                (λ p : Pixel, replicate filters (tf_reduce_sum p))))
|}.

Definition identity_batch_norm : BatchNorm := {| bn_fwd := λ x, x |}.

Definition small_framework : Framework := {|
  image_resize := nearest_resize;
  random_normal := λ n, replicate n (f32 1 (-1));
  new_conv := ones_conv;
  new_batch_norm := identity_batch_norm
|}.

(** The feature map of shape (b, h, w, c) with every entry [v]. *)
Definition const_tensor (b h w c : nat) (v : float32) : Tensor :=
  replicate b (replicate h (replicate w (replicate c v))).

(** A fusion unit with [n] weights, alternately 1/2 and -1/4. *)
Definition small_fusion (n features : nat) : FastFusion := {|
  size := n;
  w := (λ i, if Nat.even i then f32 1 (-1) else f32 (-1) (-2)) <$> seq 0 n;
  conv := ones_conv true features 1;
  bn := identity_batch_norm;
  resize := {| pixel_wise := ones_conv false features 1 |}
|}.

Definition small_block (features : nat) : BiFPNBlock := {|
  ff_6_td := small_fusion 2 features;
  ff_5_td := small_fusion 2 features;
  ff_4_td := small_fusion 2 features;
  ff_7_out := small_fusion 2 features;
  ff_6_out := small_fusion 3 features;
  ff_5_out := small_fusion 3 features;
  ff_4_out := small_fusion 3 features;
  ff_3_out := small_fusion 2 features
|}.

(** A pyramid with one channel and sides 16, 8, 4, 2, 1. *)
Definition small_dims : list (nat * nat) :=
  [(16, 16); (8, 8); (4, 4); (2, 2); (1, 1)].

Definition small_pyramid : list Tensor :=
  (λ d, const_tensor 1 d.1 d.2 1 (f32 1 0)) <$> small_dims.

(** Two maps for a fusion of two: a 2x2 map and a 1x1 map to be resized. *)
Definition two_inputs : list Tensor :=
  [const_tensor 1 2 2 1 (f32 1 0); const_tensor 1 1 1 1 (f32 3 0)].


(** Three maps given to a fusion of two; the second one is 1x1 and, not
    being the last, is not resized. *)
Definition three_inputs : list Tensor :=
  [const_tensor 1 2 2 1 (f32 1 0); const_tensor 1 1 1 1 (f32 3 0);
   const_tensor 1 1 1 1 (f32 5 0)].

(** Every entry of [x] satisfies [P]. *)
Definition tensor_all (P : float32 → Prop) (x : Tensor) : Prop :=
  Forall (Forall (Forall (Forall P))) x.

(** A fusion unit whose [n] weights are all [v]. *)
Definition uniform_fusion (v : float32) (n features : nat) : FastFusion := {|
  size := n;
  w := replicate n v;
  conv := ones_conv true features 1;
  bn := identity_batch_norm;
  resize := {| pixel_wise := ones_conv false features 1 |}
|}.

(** Two maps for a fusion of two: a 2x2 map of ones and a 1x1 map of
    fives. *)
Definition spread_inputs : list Tensor :=
  [const_tensor 1 2 2 1 (f32 1 0); const_tensor 1 1 1 1 (f32 5 0)].

(** Two maps for a fusion of two, the first one with infinite entries. *)
Definition infinite_inputs : list Tensor :=
  [const_tensor 1 2 2 1 (S754_infinity false); const_tensor 1 1 1 1 (f32 3 0)].

(** A model of two blocks. *)
Definition small_model : BiFPN := {| blocks := [small_block 1; small_block 1] |}.

(** * Properties *)

(** ** Float32 arithmetic *)

Section Float32.

Local Open Scope Z_scope.

(** The literals used below. *)
Lemma EPSILON_nearest : EPSILON = f32_div (f32 1 0) (f32 100000 0).
Proof. reflexivity. Qed.

(** Digits and shifts of mantissas. *)
Lemma digits2_pos_size p : digits2_pos p = Pos.size p.
Proof. induction p; simpl; congruence. Qed.

Lemma digits2_bounds p :
  2 ^ (Z.pos (digits2_pos p) - 1) ≤ Z.pos p < 2 ^ Z.pos (digits2_pos p).
Proof.
  rewrite digits2_pos_size. split.
  - pose proof (Pos.size_le p) as H.
    assert (H0 : 2 ^ Z.pos (Pos.size p) ≤ 2 * Z.pos p).
    { change (2 * Z.pos p) with (Z.pos p~0). rewrite <- Pos2Z.inj_pow. lia. }
    replace (Z.pos (Pos.size p)) with (Z.succ (Z.pos (Pos.size p) - 1)) in H0
      by lia.
    rewrite Z.pow_succ_r in H0 by lia. lia.
  - pose proof (Pos.size_gt p) as H. rewrite <- Pos2Z.inj_pow. lia.
Qed.

Lemma digits2_unique p k :
  2 ^ (k - 1) ≤ Z.pos p < 2 ^ k → Z.pos (digits2_pos p) = k.
Proof.
  intros [H1 H2]. pose proof (digits2_bounds p) as [H3 H4].
  set (d := Z.pos (digits2_pos p)) in *.
  assert (Hd : 0 < d) by (unfold d; lia).
  assert (Hk : 0 < k).
  { destruct (Z_lt_le_dec 0 k) as [|Hle]; [done|].
    destruct (Z.eq_dec k 0) as [->|]; [simpl in H2; lia|].
    rewrite Z.pow_neg_r in H2 by lia. lia. }
  assert (d - 1 < k) by (apply (Z.pow_lt_mono_r_iff 2); lia).
  assert (k - 1 < d) by (apply (Z.pow_lt_mono_r_iff 2); lia).
  lia.
Qed.

Lemma shr_1_m mrs : 0 ≤ shr_m mrs → shr_m (shr_1 mrs) = shr_m mrs / 2.
Proof.
  destruct mrs as [m r s]. simpl. intros Hm.
  destruct m as [|[p|p|]|p]; cbn [shr_m]; [done| | |done|lia].
  - apply (Z.div_unique _ _ _ 1); lia.
  - apply (Z.div_unique _ _ _ 0); lia.
Qed.

Lemma iter_shr_1_m n mrs :
  0 ≤ shr_m mrs →
  shr_m (SpecFloat.iter_pos shr_1 n mrs) = shr_m mrs / 2 ^ Z.pos n.
Proof.
  revert mrs. induction n as [n IH|n IH|]; intros mrs Hm;
    simpl SpecFloat.iter_pos.
  - assert (H1 : 0 ≤ shr_m (shr_1 mrs)).
    { rewrite shr_1_m by done. apply Z.div_pos; lia. }
    assert (H2 : 0 ≤ shr_m (SpecFloat.iter_pos shr_1 n (shr_1 mrs))).
    { rewrite IH by done. apply Z.div_pos; [done|].
      apply Z.pow_pos_nonneg; lia. }
    rewrite IH, IH, shr_1_m by done.
    rewrite !Z.div_div by (try apply Z.pow_pos_nonneg; lia).
    f_equal. replace (Z.pos n~1) with (1 + Z.pos n + Z.pos n) by lia.
    rewrite !Z.pow_add_r by lia. lia.
  - assert (H2 : 0 ≤ shr_m (SpecFloat.iter_pos shr_1 n mrs)).
    { rewrite IH by done. apply Z.div_pos; [done|].
      apply Z.pow_pos_nonneg; lia. }
    rewrite IH, IH by done.
    rewrite !Z.div_div by (try apply Z.pow_pos_nonneg; lia).
    f_equal. replace (Z.pos n~0) with (Z.pos n + Z.pos n) by lia.
    rewrite !Z.pow_add_r by lia. lia.
  - by rewrite shr_1_m.
Qed.

Lemma iter_xO m d : Z.pos (Pos.iter xO m d) = Z.pos m * 2 ^ Z.pos d.
Proof.
  induction d as [|d IH] using Pos.peano_ind.
  - simpl. lia.
  - rewrite Pos.iter_succ, Pos2Z.inj_succ, Z.pow_succ_r by lia.
    change (Z.pos (Pos.iter xO m d)~0) with (2 * Z.pos (Pos.iter xO m d)).
    lia.
Qed.

Lemma shl_align_fst m e e' :
  e' ≤ e → Z.pos (shl_align m e e').1 = Z.pos m * 2 ^ (e - e').
Proof.
  intros He. unfold shl_align. destruct (e' - e) as [|p|p] eqn:Hd; try lia.
  - replace (e - e') with 0 by lia. simpl. lia.
  - simpl. rewrite iter_xO. f_equal. f_equal. lia.
Qed.

Lemma shr_record_of_loc_m m l : shr_m (shr_record_of_loc m l) = m.
Proof. by destruct l as [|[]]. Qed.

(** The shift that brings a mantissa to 24 bits: by [n] bits when [n] is
    positive, none otherwise. *)
Lemma shr_fexp_spec m e l mrs' e' :
  0 ≤ m →
  shr_fexp prec32 emax32 m e l = (mrs', e') →
  let n := fexp prec32 emax32 (Zdigits2 m + e) - e in
  (n ≤ 0 → mrs' = shr_record_of_loc m l ∧ e' = e) ∧
  (0 < n → shr_m mrs' = m / 2 ^ n ∧ e' = e + n).
Proof.
  intros Hm H n. unfold shr_fexp, shr in H. fold n in H.
  destruct n as [|p|p] eqn:Hn; split; try lia; intros _.
  - by inversion H.
  - inversion H; subst. split; [|done].
    rewrite iter_shr_1_m by (by rewrite shr_record_of_loc_m).
    by rewrite shr_record_of_loc_m.
  - by inversion H.
Qed.

Lemma shr_fexp_nonneg m e l :
  0 ≤ m → 0 ≤ shr_m (shr_fexp prec32 emax32 m e l).1.
Proof.
  intros Hm. destruct (shr_fexp prec32 emax32 m e l) as [mrs' e'] eqn:H.
  apply shr_fexp_spec in H; [|done]. cbv zeta in H. destruct H as [H1 H2].
  simpl.
  destruct (Z_lt_le_dec 0 (fexp prec32 emax32 (Zdigits2 m + e) - e))
    as [Hn|Hn].
  - destruct (H2 Hn) as [-> _]. apply Z.div_pos; [done|].
    apply Z.pow_pos_nonneg; lia.
  - destruct (H1 Hn) as [-> _]. by rewrite shr_record_of_loc_m.
Qed.

Lemma round_nearest_even_bounds m l : m ≤ round_nearest_even m l ≤ m + 1.
Proof.
  unfold round_nearest_even.
  destruct l as [|[]]; try destruct (Z.even m); lia.
Qed.

(** Rounding a non-negative number gives a non-negative float32. *)
Lemma binary_round_aux_nonneg mx ex lx :
  0 ≤ mx → f32_nonneg (binary_round_aux prec32 emax32 false mx ex lx) = true.
Proof.
  intros Hm. unfold binary_round_aux.
  pose proof (shr_fexp_nonneg mx ex lx Hm) as H1.
  destruct (shr_fexp prec32 emax32 mx ex lx) as [mrs' e']. simpl in H1.
  pose proof (round_nearest_even_bounds (shr_m mrs') (loc_of_shr_record mrs'))
    as [Hr _].
  pose proof (shr_fexp_nonneg
    (round_nearest_even (shr_m mrs') (loc_of_shr_record mrs')) e' loc_Exact)
    as H2.
  destruct (shr_fexp prec32 emax32 _ e' loc_Exact) as [mrs'' e''].
  simpl in H2.
  destruct (shr_m mrs'') as [|q|q]; [done| |lia].
  by destruct (e'' <=? emax32 - prec32).
Qed.

Lemma f32_add_nonneg x y :
  f32_nonneg x = true → f32_nonneg y = true → f32_nonneg (f32_add x y) = true.
Proof.
  destruct x as [[]|[]| |[] mx ex], y as [[]|[]| |[] my ey]; try done.
  intros _ _. unfold f32_add, SFadd. cbn [cond_Zopp].
  rewrite <- Pos2Z.inj_add. unfold binary_normalize, binary_round.
  destruct (shl_align _ _ _) as [mz ez]. by apply binary_round_aux_nonneg.
Qed.

(** Comparison with [EPSILON]. *)
Lemma f32_leb_EPSILON_finite m e :
  -40 < e ∨ (e = -40 ∧ 10995116 ≤ Z.pos m) →
  f32_leb EPSILON (S754_finite false m e) = true.
Proof.
  intros H. unfold f32_leb, SFleb, EPSILON, SFcompare.
  destruct (Z.compare_spec (-40) e) as [Heq|Hlt|Hgt]; [|done|lia].
  destruct H as [H|[_ H]]; [lia|].
  change (PosDef.Pos.compare_cont Eq 10995116 m) with (10995116 ?= m)%positive.
  destruct (Pos.compare_spec 10995116 m); [done..|lia].
Qed.

(** Rounding to nearest of a number that is at least [EPSILON] gives a
    float32 that is at least [EPSILON]. *)
Lemma binary_round_ge_EPSILON m e :
  e ≤ -40 → 10995116 * 2 ^ (-40 - e) ≤ Z.pos m →
  f32_leb EPSILON (binary_round prec32 emax32 false m e) = true.
Proof.
  intros He Hm.
  pose proof (digits2_bounds m) as [HD1 HD2].
  set (D := Z.pos (digits2_pos m)) in *.
  assert (HD : 24 ≤ D + e + 40).
  { assert (H : 2 ^ (-17 - e) < 2 ^ D);
      [|apply Z.pow_lt_mono_r_iff in H; lia].
    eapply Z.le_lt_trans; [|exact HD2].
    etrans; [|exact Hm].
    replace (-17 - e) with (23 + (-40 - e)) by lia.
    rewrite Z.pow_add_r by lia.
    apply Z.mul_le_mono_nonneg_r; [apply Z.pow_nonneg; lia|]. done. }
  unfold binary_round. fold D.
  assert (HE : fexp prec32 emax32 (D + e) = D + e - 24).
  { unfold fexp, emin, prec32, emax32. lia. }
  rewrite HE. unfold shl_align.
  destruct (D + e - 24 - e) eqn:Hsh; try lia.
  all: unfold binary_round_aux.
  all: destruct (shr_fexp prec32 emax32 (Z.pos m) e loc_Exact)
         as [mrs' e'] eqn:H1.
  all: apply shr_fexp_spec in H1; [|lia].
  all: cbn [Zdigits2] in H1; fold D in H1; rewrite HE in H1; cbv zeta in H1.
  all: destruct H1 as [H1a H1b].
  - (* the mantissa has 24 digits: no shift, no rounding *)
    destruct H1a as [-> ->]; [lia|].
    cbn [shr_record_of_loc shr_m loc_of_shr_record round_nearest_even].
    destruct (shr_fexp prec32 emax32 (Z.pos m) e loc_Exact)
      as [mrs'' e''] eqn:H2.
    apply shr_fexp_spec in H2; [|lia].
    cbn [Zdigits2] in H2; fold D in H2; rewrite HE in H2; cbv zeta in H2.
    destruct H2 as [[-> ->] _]; [lia|]. cbn [shr_record_of_loc shr_m].
    replace (e <=? emax32 - prec32) with true
      by (unfold emax32, prec32; lia).
    apply f32_leb_EPSILON_finite. right. split; [lia|].
    replace (-40 - e) with 0 in Hm by lia. lia.
  - (* a shift by D - 24 bits, then rounding *)
    destruct H1b as [Hm1 ->]; [lia|].
    set (n := D + e - 24 - e) in *.
    assert (Hn : 0 < 2 ^ n) by (apply Z.pow_pos_nonneg; lia).
    assert (Hm1lo : 2 ^ 23 ≤ shr_m mrs').
    { rewrite Hm1. apply Z.div_le_lower_bound; [done|].
      rewrite Z.mul_comm, <- Z.pow_add_r by lia.
      replace (23 + n) with (D - 1) by lia. done. }
    assert (Hm1hi : shr_m mrs' < 2 ^ 24).
    { rewrite Hm1. apply Z.div_lt_upper_bound; [done|].
      rewrite <- Z.pow_add_r by lia.
      replace (n + 24) with D by lia. done. }
    pose proof (round_nearest_even_bounds (shr_m mrs')
      (loc_of_shr_record mrs')) as [Hr1 Hr2].
    set (m2 := round_nearest_even (shr_m mrs') (loc_of_shr_record mrs')) in *.
    destruct m2 as [|q|q] eqn:Hq; [lia| |lia].
    destruct (shr_fexp prec32 emax32 (Z.pos q) (e + n) loc_Exact)
      as [mrs'' e''] eqn:H2.
    apply shr_fexp_spec in H2; [|lia]. cbn [Zdigits2] in H2. cbv zeta in H2.
    destruct (Z_lt_le_dec (Z.pos q) (2 ^ 24)) as [Hlt|Hge].
    + rewrite (digits2_unique q 24) in H2 by (simpl; lia).
      assert (HE2 : fexp prec32 emax32 (24 + (e + n)) - (e + n) = 0).
      { unfold fexp, emin, prec32, emax32. lia. }
      rewrite HE2 in H2. destruct H2 as [[-> ->] _]; [lia|].
      cbn [shr_record_of_loc shr_m].
      destruct (e + n <=? emax32 - prec32); [|done].
      apply f32_leb_EPSILON_finite.
      destruct (Z_lt_le_dec (-40) (e + n)); [by left|right]. split; [lia|].
      etrans; [|exact Hr1]. rewrite Hm1. apply Z.div_le_lower_bound; [done|].
      replace n with (-40 - e) by lia. lia.
    + assert (Hq24 : Z.pos q = 2 ^ 24) by lia.
      rewrite (digits2_unique q 25) in H2 by (rewrite Hq24; simpl; lia).
      assert (HE2 : fexp prec32 emax32 (25 + (e + n)) - (e + n) = 1).
      { unfold fexp, emin, prec32, emax32. lia. }
      rewrite HE2 in H2. destruct H2 as [_ [-> ->]]; [lia|].
      rewrite Hq24. change (2 ^ 24 / 2 ^ 1) with (Z.pos 8388608).
      destruct (e + n + 1 <=? emax32 - prec32); [|done].
      apply f32_leb_EPSILON_finite. left. lia.
Qed.

Lemma f32_add_EPSILON_ge s :
  f32_nonneg s = true → f32_leb EPSILON (f32_add EPSILON s) = true.
Proof.
  destruct s as [[]|[]| |[] my ey]; try done.
  intros _. unfold f32_add, EPSILON, SFadd. cbn [cond_Zopp].
  set (ez := IntDef.Z.min (-40) ey).
  assert (Hez : ez ≤ -40 ∧ ez ≤ ey) by (unfold ez; lia).
  rewrite <- Pos2Z.inj_add. cbn [binary_normalize].
  apply binary_round_ge_EPSILON; [lia|].
  rewrite Pos2Z.inj_add, shl_align_fst by lia. lia.
Qed.

End Float32.

Lemma f32_leb_EPSILON_inv x :
  f32_leb EPSILON x = true → f32_is_zero x = false ∧ f32_is_nan x = false.
Proof. by destruct x as [[]|[]| |[] m e]. Qed.

Lemma f32_add_EPSILON_zero z :
  f32_is_zero z = true → f32_add EPSILON z = EPSILON.
Proof. by destruct z. Qed.

Lemma f32_add_zero x y :
  f32_is_zero x = true → f32_is_zero y = true →
  f32_is_zero (f32_add x y) = true.
Proof. by destruct x as [[]| | |], y as [[]| | |]. Qed.

Lemma f32_mul_zero x y :
  f32_is_zero x = true → f32_is_finite y = true →
  f32_is_zero (f32_mul x y) = true.
Proof. by destruct x, y. Qed.

Lemma f32_div_zero_EPSILON x :
  f32_is_zero x = true → f32_is_zero (f32_div x EPSILON) = true.
Proof. by destruct x. Qed.

(** ** The activation *)

Lemma relu_not_negative v : f32_ltb (relu v) f32_zero = false.
Proof. unfold relu. by destruct (f32_ltb v f32_zero) eqn:E. Qed.

Lemma relu_nonneg v : f32_is_nan v = false → f32_nonneg (relu v) = true.
Proof. by destruct v as [[]|[]| |[] m e]. Qed.

Lemma relu_nonpos v :
  f32_leb v f32_zero = true → f32_is_zero (relu v) = true.
Proof. by destruct v as [[]|[]| |[] m e]. Qed.

(** ** The normalisation denominator *)

Lemma foldl_f32_add_nonneg ws acc :
  f32_nonneg acc = true → Forall (λ v, f32_nonneg v = true) ws →
  f32_nonneg (foldl f32_add acc ws) = true.
Proof.
  intros Hacc Hws. revert acc Hacc.
  induction Hws as [|v ws Hv _ IH]; intros acc Hacc; [done|].
  simpl. apply IH. by apply f32_add_nonneg.
Qed.

Lemma tf_reduce_sum_relu_nonneg ws :
  Forall (λ v, f32_is_nan v = false) ws →
  f32_nonneg (tf_reduce_sum (relu <$> ws)) = true.
Proof.
  intros Hws. apply foldl_f32_add_nonneg; [done|].
  apply Forall_fmap. eapply Forall_impl; [exact Hws|].
  intros v Hv. by apply relu_nonneg.
Qed.

Lemma foldl_f32_add_zero ws acc :
  f32_is_zero acc = true → Forall (λ v, f32_is_zero v = true) ws →
  f32_is_zero (foldl f32_add acc ws) = true.
Proof.
  intros Hacc Hws. revert acc Hacc.
  induction Hws as [|v ws Hv _ IH]; intros acc Hacc; [done|].
  simpl. apply IH. by apply f32_add_zero.
Qed.

Lemma tf_reduce_sum_relu_nonpos ws :
  Forall (λ v, f32_leb v f32_zero = true) ws →
  f32_is_zero (tf_reduce_sum (relu <$> ws)) = true.
Proof.
  intros Hws. apply foldl_f32_add_zero; [done|].
  apply Forall_fmap. eapply Forall_impl; [exact Hws|].
  intros v Hv. by apply relu_nonpos.
Qed.

(** With weights that are not NaN the denominator is at least
    [EPSILON]. *)
Lemma w_sum_ge_EPSILON ws :
  Forall (λ v, f32_is_nan v = false) ws →
  f32_leb EPSILON (f32_add EPSILON (tf_reduce_sum (relu <$> ws))) = true.
Proof. intros Hws. by apply f32_add_EPSILON_ge, tf_reduce_sum_relu_nonneg. Qed.

(** With weights that are all zero or negative it is [EPSILON]. *)
Lemma w_sum_nonpos ws :
  Forall (λ v, f32_leb v f32_zero = true) ws →
  f32_add EPSILON (tf_reduce_sum (relu <$> ws)) = EPSILON.
Proof. intros Hws. by apply f32_add_EPSILON_zero, tf_reduce_sum_relu_nonpos. Qed.

(** ** Python sequences *)

Lemma py_norm_index_nat n i : i < n → py_norm_index n (Z.of_nat i) = Some i.
Proof.
  intros Hi. unfold py_norm_index.
  destruct (Z.ltb_spec (Z.of_nat i) 0); [lia|].
  destruct (Z.leb_spec 0 (Z.of_nat i)); [|lia].
  destruct (Z.ltb_spec (Z.of_nat i) (Z.of_nat n)); [|lia].
  simpl. by rewrite Nat2Z.id.
Qed.

Lemma py_norm_index_ge n i : n ≤ i → py_norm_index n (Z.of_nat i) = None.
Proof.
  intros Hi. unfold py_norm_index.
  destruct (Z.ltb_spec (Z.of_nat i) 0); [lia|].
  destruct (Z.ltb_spec (Z.of_nat i) (Z.of_nat n)); [lia|].
  by rewrite andb_false_r.
Qed.

Lemma py_norm_index_last n : 1 ≤ n → py_norm_index n (-1) = Some (n - 1).
Proof.
  intros Hn. unfold py_norm_index.
  destruct (Z.ltb_spec (-1) 0); [|lia].
  destruct (Z.leb_spec 0 (-1 + Z.of_nat n)); [|lia].
  destruct (Z.ltb_spec (-1 + Z.of_nat n) (Z.of_nat n)); [|lia].
  simpl. f_equal. lia.
Qed.

Lemma py_getitem_nat {A} (xs : list A) i x :
  xs !! i = Some x → py_getitem xs (Z.of_nat i) = Ok x.
Proof.
  intros Hx. unfold py_getitem.
  rewrite py_norm_index_nat by (by eapply lookup_lt_Some). by rewrite Hx.
Qed.

Lemma py_getitem_head {A} (xs : list A) x :
  head xs = Some x → py_getitem xs 0 = Ok x.
Proof.
  intros Hx. apply (py_getitem_nat xs 0). by rewrite <- head_lookup.
Qed.

Lemma py_getitem_ge {A} (xs : list A) i :
  length xs ≤ i → py_getitem xs (Z.of_nat i) = Raise IndexError.
Proof. intros Hi. unfold py_getitem. by rewrite py_norm_index_ge. Qed.

Lemma py_getitem_last {A} (xs : list A) x :
  last xs = Some x → py_getitem xs (-1) = Ok x.
Proof.
  intros Hx. unfold py_getitem.
  assert (1 ≤ length xs) by (destruct xs; [done|simpl; lia]).
  rewrite py_norm_index_last by done.
  rewrite last_lookup in Hx. replace (length xs - 1) with (pred (length xs)) by lia.
  by rewrite Hx.
Qed.

Lemma py_setitem_last {A} (xs : list A) v :
  xs ≠ [] → py_setitem xs (-1) v = Ok (<[length xs - 1 := v]> xs).
Proof.
  intros Hxs. unfold py_setitem.
  rewrite py_norm_index_last; [done|]. destruct xs; [done|simpl; lia].
Qed.

Lemma py_getitem_nil {A} i : py_getitem (@nil A) i = Raise IndexError.
Proof.
  unfold py_getitem, py_norm_index. simpl length.
  match goal with
  | |- context [if ?c then Some _ else None] => destruct c eqn:E
  end; [|done].
  exfalso. apply andb_true_iff in E as [E1 E2].
  apply Z.leb_le in E1. apply Z.ltb_lt in E2.
  destruct (i <? 0)%Z; lia.
Qed.

(** ** Feature-map algebra *)

Lemma tshape_tmap f x : tshape (tmap f x) = tshape x.
Proof.
  unfold tshape, tmap. destruct x as [|[|[|p r] im] x]; simpl; try done.
  by rewrite !length_fmap.
  by rewrite !length_fmap.
  by rewrite !length_fmap.
Qed.

(** Summing along the second axis of a stack is summing its elements: both
    accumulate from zero in the same order. *)
Lemma foldl_zip_cons {A} (add : A → A → A) (acc t : list A)
    (T : list (list A)) :
  zip_with (foldl add) acc (zip_with cons t T) =
  zip_with (foldl add) (zip_with add acc t) T.
Proof.
  revert t T. induction acc as [|z acc IH]; intros [|a t] [|g T]; simpl;
    try done.
  by rewrite IH.
Qed.

Lemma transpose01_foldl {A} (add : A → A → A) (ss : list (list A)) n
    (acc : list A) :
  length acc = n → Forall (λ s, length s = n) ss →
  zip_with (foldl add) acc (transpose01 n ss) = foldl (zip_with add) acc ss.
Proof.
  intros Hacc Hss. revert acc Hacc.
  induction Hss as [|s ss Hs _ IH]; intros acc Hacc.
  - simpl. rewrite zip_with_replicate_r_eq by done. apply list_fmap_id.
  - simpl. rewrite foldl_zip_cons. apply IH.
    rewrite length_zip_with. lia.
Qed.

Lemma sum_with_zip_cons {A} (add : A → A → A) (zeros_like : A → A) d
    (t : list A) (T : list (list A)) :
  sum_with add zeros_like d <$> zip_with cons t T =
  zip_with (foldl add) (zip_with add (zeros_like <$> t) t) T.
Proof.
  revert T. induction t as [|a t IH]; intros [|g T]; simpl; try done.
  by rewrite <- IH.
Qed.

Lemma transpose01_sum (ts : list Tensor) n :
  ts ≠ [] → Forall (λ t, length t = n) ts →
  tf_reduce_sum_axis1 (transpose01 n ts) = tensor_sum ts.
Proof.
  unfold tf_reduce_sum_axis1, tensor_sum.
  destruct ts as [|t ts]; [done|]. intros _ Hlen.
  apply Forall_cons in Hlen as [Hn Hlen].
  change (transpose01 n (t :: ts)) with (zip_with cons t (transpose01 n ts)).
  rewrite sum_with_zip_cons, transpose01_foldl; [done| |done].
  by rewrite length_zip_with, length_fmap, Hn, Nat.min_id.
Qed.


Lemma mapM_scaled (a : list float32) (xs : list Tensor) k n :
  k + n ≤ length a → k + n ≤ length xs →
  mapM (λ i,
      wi ← tf_getitem a i;
      xi ← py_getitem xs (Z.of_nat i);
      Ok (tscale wi xi)) (seq k n) =
  Ok (zip_with tscale (take n (drop k a)) (take n (drop k xs))).
Proof.
  revert k. induction n as [|n IH]; intros k Ha Hxs; [done|].
  destruct (lookup_lt_is_Some_2 a k) as [wi Hwi]; [lia|].
  destruct (lookup_lt_is_Some_2 xs k) as [xi Hxi]; [lia|].
  simpl seq. simpl mapM. unfold tf_getitem. rewrite Hwi. simpl.
  rewrite (py_getitem_nat _ _ _ Hxi). simpl.
  rewrite IH by lia. simpl.
  rewrite (drop_S _ _ _ Hwi), (drop_S _ _ _ Hxi). done.
Qed.

Lemma tf_stack_same_shape (ts : list Tensor) s :
  Forall (λ t, tshape t = s) ts → tf_stack ts = Ok ts.
Proof.
  intros Hts. destruct ts as [|t ts]; [done|]. unfold tf_stack.
  assert (Hs : tshape t = s) by (by apply Forall_cons in Hts as [? _]).
  replace (forallb _ (t :: ts)) with true; [done|]. symmetry.
  apply forallb_forall. intros t' Ht'. unfold shape_eqb.
  apply bool_decide_eq_true. rewrite Hs. symmetry.
  rewrite Forall_forall in Hts. apply Hts. by apply list_elem_of_In.
Qed.

Lemma tf_stack_mismatch (ts : list Tensor) t t' :
  head ts = Some t → t' ∈ ts → tshape t ≠ tshape t' →
  tf_stack ts = Raise ShapeError.
Proof.
  intros Hhd Hin Hne. destruct ts as [|t0 ts]; [done|].
  injection Hhd as ->. unfold tf_stack.
  destruct (forallb _ _) eqn:E; [|done]. exfalso.
  rewrite forallb_forall in E. apply list_elem_of_In in Hin.
  specialize (E t' Hin). unfold shape_eqb in E.
  by apply bool_decide_eq_true in E.
Qed.

Lemma Forall_zip_with_r {A B C} (P : C → Prop) (Q : B → Prop) (f : A → B → C) l k :
  (∀ a b, Q b → P (f a b)) → Forall Q k → Forall P (zip_with f l k).
Proof.
  intros Hf Hk. revert l. induction Hk as [|b k Hb _ IH]; intros [|a l]; simpl;
    constructor; eauto.
Qed.

Lemma tshape_length x s : tshape x = s → head s = Some (length x).
Proof. by intros <-. Qed.

(** ** The forward pass of a fusion unit *)

Section Properties.
Context {fw : Framework}.

Lemma M_bind_Ok {A B} (m : M A) (f : A → M B) h a h' :
  m h = Ok (a, h') → (m ≫= f) h = f a h'.
Proof. intros Hm. unfold mbind, M_bind. by rewrite Hm. Qed.

Lemma M_bind_Raise {A B} (m : M A) (f : A → M B) h e :
  m h = Raise e → (m ≫= f) h = Raise e.
Proof. intros Hm. unfold mbind, M_bind. by rewrite Hm. Qed.

Lemma mapM_load (l : loc) (xs : list Tensor) (a : list float32) (h : gmap nat (list Tensor)) (idx : list nat) :
  h !! l = Some xs →
  mapM (M:=M) (λ i,
      wi ← lift (tf_getitem a i);
      cur ← load l;
      xi ← lift (py_getitem cur (Z.of_nat i));
      mret (tscale wi xi)) idx h =
  lift (mapM (λ i,
      wi ← tf_getitem a i;
      xi ← py_getitem xs (Z.of_nat i);
      Ok (tscale wi xi)) idx) h.
Proof.
  intros Hl. induction idx as [|i idx IH]; [done|].
  simpl. unfold mbind at 1. unfold M_bind at 1.
  unfold mbind at 1. unfold M_bind at 1.
  destruct (tf_getitem a i) as [wi|e]; simpl; [|done].
  unfold mbind at 1. unfold M_bind at 1. unfold load at 1. rewrite Hl.
  unfold mbind at 1. unfold M_bind at 1.
  destruct (py_getitem xs (Z.of_nat i)) as [xi|e]; simpl; [|done].
  unfold mbind at 1. unfold M_bind at 1. rewrite IH.
  unfold lift.
  match goal with |- context [mapM ?f idx] => destruct (mapM f idx) end;
    reflexivity.
Qed.

Lemma FastFusion_call_eval (self : FastFusion) (l : loc) (xs : list Tensor) (h : gmap nat (list Tensor)) :
  h !! l = Some xs →
  FastFusion_call self l h =
    match FastFusion_eval self xs with
    | Ok (out, xs') => Ok (out, <[l:=xs']> h)
    | Raise e => Raise e
    end.
Proof.
  intros Hl. unfold FastFusion_call, FastFusion_eval.
  rewrite (M_bind_Ok _ _ h xs h) by (unfold load; by rewrite Hl).
  destruct (py_getitem xs (-1)) as [lastx|e]; [|done].
  rewrite (M_bind_Ok _ _ h lastx h) by done. simpl.
  destruct (py_getitem xs 0) as [first|e]; [|done].
  rewrite (M_bind_Ok _ _ h first h) by done. simpl.
  destruct (py_setitem xs (-1) _) as [xs'|e]; [|done].
  rewrite (M_bind_Ok _ _ h xs' h) by done. simpl.
  rewrite (M_bind_Ok _ _ h tt (<[l:=xs']> h)) by done.
  unfold tf_map_fn.
  unfold mbind at 1. unfold M_bind at 1. unfold mbind at 1. unfold M_bind at 1.
  rewrite (mapM_load l xs') by apply lookup_insert_eq.
  destruct (mapM _ (tf_range (size self))) as [elems|e]; simpl; [|done].
  destruct (tf_stack elems) as [st|e]; simpl; [|done].
  unfold mbind at 1. unfold M_bind at 1.
  destruct (tf_transpose_10234 st) as [tr|e]; simpl; done.
Qed.

Lemma aligned_inputs_setitem (self : FastFusion) xs first lastx :
  head xs = Some first → last xs = Some lastx →
  py_setitem xs (-1) (Resize_call (resize self) lastx (tshape first)) =
    Ok (aligned_inputs self xs).
Proof.
  intros Hhd Hlast. destruct xs as [|x xs]; [done|]. injection Hhd as ->.
  rewrite py_setitem_last by done. unfold aligned_inputs. by rewrite Hlast.
Qed.

Lemma aligned_inputs_length (self : FastFusion) xs :
  length (aligned_inputs self xs) = length xs.
Proof.
  unfold aligned_inputs. destruct xs as [|x xs]; [done|].
  destruct (last (x :: xs)); [|done]. by rewrite length_insert.
Qed.

Lemma FastFusion_eval_aligned (self : FastFusion) xs s :
  1 ≤ size self → size self ≤ length xs → length (w self) = size self →
  Forall (λ x, tshape x = s) (take (size self) (aligned_inputs self xs)) →
  FastFusion_eval self xs =
    Ok (divided_fusion self (aligned_inputs self xs), aligned_inputs self xs).
Proof.
  intros Hn Hlen Hw Hshape.
  destruct xs as [|first rest] eqn:Hxs; [simpl in Hlen; lia|]. rewrite <- Hxs in *.
  assert (Hhd : head xs = Some first) by (by rewrite Hxs).
  destruct (proj2 (last_is_Some xs)) as [lastx Hlast]; [by rewrite Hxs|].
  unfold FastFusion_eval.
  rewrite (py_getitem_last _ _ Hlast). simpl.
  rewrite (py_getitem_head _ _ Hhd). simpl.
  rewrite (aligned_inputs_setitem self xs first lastx Hhd Hlast). simpl.
  set (xs' := aligned_inputs self xs) in *.
  set (a := relu <$> w self).
  assert (Ha : length a = size self) by (unfold a; by rewrite length_fmap).
  assert (Hxs' : length xs' = length xs) by apply aligned_inputs_length.
  unfold tf_range. rewrite (mapM_scaled a xs' 0 (size self)) by (simpl; lia).
  simpl. rewrite !drop_0.
  remember (zip_with tscale (take (size self) a) (take (size self) xs'))
    as elems eqn:Helems.
  assert (Hel : Forall (λ t, tshape t = s) elems).
  { rewrite Helems. eapply Forall_zip_with_r; [|exact Hshape].
    intros c x <-. apply tshape_tmap. }
  rewrite (tf_stack_same_shape _ s Hel). simpl.
  assert (Hsum : zip_with tscale a xs' = elems).
  { rewrite Helems, (take_ge a) by lia.
    by rewrite zip_with_take_r' by lia. }
  destruct elems as [|e0 elems'].
  { exfalso. apply (f_equal length) in Helems.
    rewrite length_zip_with, !length_take in Helems. simpl in Helems. lia. }
  change (tf_transpose_10234 (e0 :: elems'))
    with (Ok (transpose01 (length e0) (e0 :: elems'))).
  cbv beta iota delta [mbind result_bind].
  rewrite transpose01_sum.
  - unfold divided_fusion. fold a. by rewrite Hsum.
  - done.
  - assert (He0 : tshape e0 = s) by (by apply Forall_cons in Hel as [? _]).
    eapply Forall_impl; [exact Hel|]. intros t Ht. simpl in Ht.
    apply tshape_length in Ht, He0. congruence.
Qed.
End Properties.

(** ** Shapes *)

Ltac shape_lia := unfold Tensor5, Tensor, Image, Row, Pixel in *; lia.


Lemma Forall_zipw {A} (P : A → Prop) (f : A → A → A) l k :
  (∀ a b, P a → P b → P (f a b)) → Forall P l → Forall P k →
  Forall P (zip_with f l k).
Proof.
  intros Hf Hl. revert k. induction Hl as [|a l Ha _ IH]; intros k Hk; [done|].
  destruct Hk as [|b k Hb Hk]; simpl; [done|]. constructor; eauto.
Qed.

Lemma has_shape_tmap f b h w c x :
  has_shape b h w c x → has_shape b h w c (tmap f x).
Proof.
  intros [Hb Hx]. unfold tmap. split; [by rewrite length_fmap|].
  apply Forall_fmap. eapply Forall_impl; [exact Hx|].
  intros im [Hh Him]. simpl. split; [by rewrite length_fmap|].
  apply Forall_fmap. eapply Forall_impl; [exact Him|].
  intros r [Hw Hr]. simpl. split; [by rewrite length_fmap|].
  apply Forall_fmap. eapply Forall_impl; [exact Hr|].
  intros p Hp. simpl. by rewrite length_fmap.
Qed.

Lemma has_shape_tadd b h w c x y :
  has_shape b h w c x → has_shape b h w c y → has_shape b h w c (tadd x y).
Proof.
  intros [Hbx Hx] [Hby Hy]. split.
  { unfold tadd. rewrite length_zip_with. shape_lia. }
  apply Forall_zipw; [|done..].
  intros im1 im2 [Hh1 Him1] [Hh2 Him2]. split.
  { unfold iadd. rewrite length_zip_with. shape_lia. }
  apply Forall_zipw; [|done..].
  intros r1 r2 [Hw1 Hr1] [Hw2 Hr2]. split.
  { rewrite length_zip_with. shape_lia. }
  apply Forall_zipw; [|done..].
  intros p1 p2 Hp1 Hp2. rewrite length_zip_with. shape_lia.
Qed.

Lemma has_shape_tensor_sum b h w c ts :
  ts ≠ [] → Forall (has_shape b h w c) ts → has_shape b h w c (tensor_sum ts).
Proof.
  unfold tensor_sum. destruct ts as [|t ts]; [done|]. intros _ Hts.
  unfold sum_with.
  assert (Hacc : has_shape b h w c (tzeros_like t)).
  { apply Forall_cons in Hts as [Ht _].
    by apply (has_shape_tmap (λ _, f32_zero)). }
  revert Hacc. generalize (tzeros_like t). generalize (t :: ts) Hts.
  intros l Hl. induction Hl as [|x l Hx _ IH]; intros acc Hacc; [done|].
  simpl. apply IH. by apply has_shape_tadd.
Qed.

Lemma has_shape_tshape b h w c x :
  1 ≤ b → 1 ≤ h → 1 ≤ w → has_shape b h w c x → tshape x = [b; h; w; c].
Proof.
  intros Hb Hh Hw [Hlen Hx]. unfold tshape.
  destruct x as [|im x]; [simpl in Hlen; lia|].
  apply Forall_cons in Hx as [[Him Hrows] _]. simpl head. simpl default.
  destruct im as [|r im]; [simpl in Him; lia|].
  apply Forall_cons in Hrows as [[Hr Hpx] _]. simpl head. simpl default.
  destruct r as [|p r]; [simpl in Hr; lia|].
  apply Forall_cons in Hpx as [Hp _]. simpl head. simpl default.
  by rewrite Hlen, Him, Hr, Hp.
Qed.

Lemma has_shape_const b h w c v : has_shape b h w c (const_tensor b h w c v).
Proof.
  unfold const_tensor. split; [by rewrite length_replicate|].
  apply Forall_replicate. split; [by rewrite length_replicate|].
  apply Forall_replicate. split; [by rewrite length_replicate|].
  apply Forall_replicate. by rewrite length_replicate.
Qed.

Lemma feature_map_const b h w c v :
  1 ≤ b → 1 ≤ h → 1 ≤ w → 1 ≤ c → feature_map (const_tensor b h w c v).
Proof.
  intros Hb Hh Hw Hc. exists b, h, w, c. split_and!; try done.
  apply has_shape_const.
Qed.

(** The small framework respects the contracts. *)

Lemma resample_length {A} (d : A) n l : length (resample d n l) = n.
Proof. unfold resample. by rewrite length_fmap, length_seq. Qed.

Lemma resample_Forall {A} (P : A → Prop) (d : A) n l :
  1 ≤ length l → Forall P l → Forall P (resample d n l).
Proof.
  intros Hl HP. unfold resample. apply Forall_fmap, Forall_forall.
  intros i Hi. apply elem_of_seq in Hi. simpl.
  assert (Hlt : i * length l / n < length l).
  { apply Nat.Div0.div_lt_upper_bound. nia. }
  destruct (lookup_lt_is_Some_2 l _ Hlt) as [x Hx]. rewrite Hx. simpl.
  rewrite Forall_forall in HP. apply HP. by eapply list_elem_of_lookup_2.
Qed.

Lemma nearest_resize_ok : @image_resize_ok small_framework.
Proof.
  intros b h0 w0 c h w x [Hb Hx] Hh0 Hw0 Hh Hw. simpl.
  split; [by rewrite length_fmap|].
  apply Forall_fmap. eapply Forall_impl; [exact Hx|].
  intros im [Him Hrows]. simpl. split; [apply resample_length|].
  apply resample_Forall.
  - rewrite length_fmap. shape_lia.
  - apply Forall_fmap. eapply Forall_impl; [exact Hrows|].
    intros r [Hr Hpx]. simpl. split; [apply resample_length|].
    apply resample_Forall; [shape_lia|done].
Qed.

Lemma ones_conv_ok s f k : Conv_ok (ones_conv s f k).
Proof.
  intros b h w ch x [Hb Hx]. simpl. split; [by rewrite length_fmap|].
  apply Forall_fmap. eapply Forall_impl; [exact Hx|].
  intros im [Hh Him]. simpl. split; [by rewrite length_fmap|].
  apply Forall_fmap. eapply Forall_impl; [exact Him|].
  intros r [Hw Hr]. simpl. split; [by rewrite length_fmap|].
  apply Forall_fmap. eapply Forall_impl; [exact Hr|].
  intros p Hp. simpl. by rewrite length_replicate.
Qed.

Lemma identity_batch_norm_ok : BatchNorm_ok identity_batch_norm.
Proof. by intros b h w ch x Hx. Qed.

Lemma small_fusion_ok n f : FastFusion_ok n f (small_fusion n f).
Proof.
  unfold FastFusion_ok. split_and!; simpl; try done.
  - by rewrite length_fmap, length_seq.
  - apply ones_conv_ok.
  - apply identity_batch_norm_ok.
  - apply ones_conv_ok.
Qed.

Lemma small_block_ok f : BiFPNBlock_ok f (small_block f).
Proof. unfold BiFPNBlock_ok. split_and!; apply small_fusion_ok. Qed.

(** ** Fusion units and blocks *)

Section Fusion.
Context {fw : Framework}.

Lemma FastFusion_eval_inputs (self : FastFusion) xs out xs' :
  FastFusion_eval self xs = Ok (out, xs') → xs' = aligned_inputs self xs.
Proof.
  unfold FastFusion_eval. intros Hev.
  destruct xs as [|first rest] eqn:Hxs; [by rewrite py_getitem_nil in Hev|].
  rewrite <- Hxs in *.
  assert (Hhd : head xs = Some first) by (by rewrite Hxs).
  destruct (proj2 (last_is_Some xs)) as [lastx Hlast]; [by rewrite Hxs|].
  rewrite (py_getitem_last _ _ Hlast) in Hev. simpl in Hev.
  rewrite (py_getitem_head _ _ Hhd) in Hev. simpl in Hev.
  rewrite (aligned_inputs_setitem self xs first lastx Hhd Hlast) in Hev.
  simpl in Hev.
  destruct (mapM _ _) as [elems|e]; simpl in Hev; [|done].
  destruct (tf_stack elems) as [st|e]; simpl in Hev; [|done].
  destruct (tf_transpose_10234 st) as [tr|e]; simpl in Hev; [|done].
  by injection Hev as _ <-.
Qed.

Lemma alloc_call_eval (self : FastFusion) xs (h : gmap nat (list Tensor)) :
  (alloc xs ≫= FastFusion_call self) h =
    match FastFusion_eval self xs with
    | Ok (out, xs') =>
        Ok (out, <[fresh (dom h) := xs']> (<[fresh (dom h) := xs]> h))
    | Raise e => Raise e
    end.
Proof.
  unfold mbind, M_bind, alloc.
  by rewrite (FastFusion_call_eval self _ xs) by apply lookup_insert_eq.
Qed.

Lemma FastFusion_apply_eval (self : FastFusion) xs :
  FastFusion_apply self xs =
    match FastFusion_eval self xs with
    | Ok (out, _) => Ok out
    | Raise e => Raise e
    end.
Proof.
  unfold FastFusion_apply. rewrite alloc_call_eval.
  by destruct (FastFusion_eval self xs) as [[out xs']|e].
Qed.

Lemma M_bind_unfold {A B} (m : M A) (f : A → M B) h :
  (m ≫= f) h =
    match m h with
    | Ok (a, h') => f a h'
    | Raise e => Raise e
    end.
Proof. done. Qed.

Ltac fusion_step :=
  rewrite M_bind_unfold, alloc_call_eval, FastFusion_apply_eval;
  match goal with
  | |- context [FastFusion_eval ?ff ?xs] =>
      destruct (FastFusion_eval ff xs) as [[? ?]|?]; [|done]
  end;
  cbv beta iota delta [mbind result_bind].

(** C1.  On a pyramid (P3, P4, P5, P6, P7), and whatever the heap is,
    [BiFPNBlock.call] computes the dataflow of the specification: the
    top-down stage P6_td, P5_td, P4_td, then the bottom-up stage P3_out,
    P4_out, P5_out, P6_out, P7_out, each fusion by the unit of that name
    (eight fields of the block, each used once) applied to the maps as they
    were given, and it returns (P3_out, P4_out, P5_out, P6_out, P7_out) in
    that order.  The in-place write of a fusion stays inside the list built
    for it. *)
Theorem BiFPNBlock_call_dataflow (self : BiFPNBlock) (P3 P4 P5 P6 P7 : Tensor)
    (h : gmap nat (list Tensor)) :
  value (BiFPNBlock_call self [P3; P4; P5; P6; P7] h) =
    BiFPNBlock_spec self P3 P4 P5 P6 P7.
Proof.
  unfold BiFPNBlock_call, BiFPNBlock_spec.
  do 8 fusion_step. done.
Qed.

Lemma FastFusion_call_aligned (self : FastFusion) (inputs : loc) xs
    (h : gmap nat (list Tensor)) s :
  h !! inputs = Some xs →
  1 ≤ size self → size self ≤ length xs → length (w self) = size self →
  Forall (λ x, tshape x = s) (take (size self) (aligned_inputs self xs)) →
  FastFusion_call self inputs h =
    Ok (divided_fusion self (aligned_inputs self xs),
        <[inputs := aligned_inputs self xs]> h).
Proof.
  intros Hl Hn Hlen Hw Hs.
  rewrite (FastFusion_call_eval self inputs xs h Hl).
  by rewrite (FastFusion_eval_aligned self xs s).
Qed.

Lemma Forall_has_shape_tshape b hh ww c (xs : list Tensor) :
  1 ≤ b → 1 ≤ hh → 1 ≤ ww → Forall (has_shape b hh ww c) xs →
  Forall (λ x, tshape x = [b; hh; ww; c]) xs.
Proof.
  intros Hb Hh Hw Hxs. eapply Forall_impl; [exact Hxs|].
  intros x Hx. by apply has_shape_tshape.
Qed.

(** C2, amended.  For a fusion unit with N >= 1 weights and a list of N
    feature maps that have one shape (b, h, w, c) once the last is resized
    to the first, the output is
    relu(bn(conv((sum over i of relu(w_i) * x_i) /
                 (EPSILON + sum over j of relu(w_j))))),
    the x_i being the inputs after the resize: the inputs are scaled by the
    activated weights, summed, and the sum is divided by the denominator;
    the weights are not normalised one by one. *)
Theorem FastFusion_call_formula (self : FastFusion) (inputs : loc) xs
    (h : gmap nat (list Tensor)) b hh ww c :
  h !! inputs = Some xs →
  1 ≤ length xs → length xs = size self → length (w self) = size self →
  Forall feature_map xs →
  1 ≤ b → 1 ≤ hh → 1 ≤ ww →
  Forall (has_shape b hh ww c) (aligned_inputs self xs) →
  value (FastFusion_call self inputs h) =
    Ok (tmap relu (bn_fwd (bn self) (conv_fwd (conv self)
          (tdiv (tensor_sum (zip_with tscale (relu <$> w self)
                               (aligned_inputs self xs)))
                (f32_add EPSILON (tf_reduce_sum (relu <$> w self))))))).
Proof.
  intros Hl Hn Hlen Hw _ Hb Hh Hww Hs.
  rewrite (FastFusion_call_aligned self inputs xs h [b; hh; ww; c]);
    [done|done|lia..|].
  by apply Forall_take, Forall_has_shape_tshape.
Qed.

(** Every entry of a feature map built from entries that satisfy [P]. *)
Lemma tensor_all_tmap (P Q : float32 → Prop) f x :
  (∀ v, P v → Q (f v)) → tensor_all P x → tensor_all Q (tmap f x).
Proof.
  intros Hf. unfold tensor_all, tmap. intros Hx.
  apply Forall_fmap. eapply Forall_impl; [exact Hx|]. intros im Him. simpl.
  apply Forall_fmap. eapply Forall_impl; [exact Him|]. intros r Hr. simpl.
  apply Forall_fmap. eapply Forall_impl; [exact Hr|]. intros p Hp. simpl.
  apply Forall_fmap. eapply Forall_impl; [exact Hp|]. done.
Qed.

Lemma tensor_all_tmap_any (Q : float32 → Prop) f x :
  (∀ v, Q (f v)) → tensor_all Q (tmap f x).
Proof.
  intros Hf. unfold tensor_all, tmap.
  apply Forall_fmap, Forall_forall. intros im _. simpl.
  apply Forall_fmap, Forall_forall. intros r _. simpl.
  apply Forall_fmap, Forall_forall. intros p _. simpl.
  apply Forall_fmap, Forall_forall. intros v _. apply Hf.
Qed.

Lemma tensor_all_tadd (P : float32 → Prop) x y :
  (∀ a b, P a → P b → P (f32_add a b)) →
  tensor_all P x → tensor_all P y → tensor_all P (tadd x y).
Proof.
  intros Hf. unfold tensor_all, tadd, iadd. intros Hx Hy.
  apply Forall_zipw; [|done..]. intros im1 im2 H1 H2.
  apply Forall_zipw; [|done..]. intros r1 r2 Hr1 Hr2.
  apply Forall_zipw; [|done..]. intros p1 p2 Hp1 Hp2.
  by apply Forall_zipw.
Qed.

(** A sum of maps of zeros is a map of zeros. *)
Lemma tensor_all_zero_sum ts :
  Forall (tensor_all (λ v, f32_is_zero v = true)) ts →
  tensor_all (λ v, f32_is_zero v = true) (tensor_sum ts).
Proof.
  unfold tensor_sum. destruct ts as [|t ts]; [by constructor|]. intros Hts.
  unfold sum_with.
  assert (Hacc : tensor_all (λ v, f32_is_zero v = true) (tzeros_like t)).
  { by apply (tensor_all_tmap_any _ (λ _, f32_zero)). }
  revert Hacc. generalize (tzeros_like t). generalize (t :: ts) Hts.
  intros l Hl. induction Hl as [|x l Hx _ IH]; intros acc Hacc; [done|].
  simpl. apply IH. apply tensor_all_tadd; [|done..].
  intros u v. apply f32_add_zero.
Qed.

(** With weights that are all zero or negative, the maps that are summed
    are maps of zeros when the inputs hold finite numbers. *)
Lemma zero_weights_scaled (ws : list float32) (xs : list Tensor) :
  Forall (λ v, f32_leb v f32_zero = true) ws →
  Forall (tensor_all (λ v, f32_is_finite v = true)) xs →
  Forall (tensor_all (λ v, f32_is_zero v = true))
    (zip_with tscale (relu <$> ws) xs).
Proof.
  intros Hws. revert xs. induction Hws as [|v ws Hv _ IH]; intros xs Hxs;
    [by constructor|].
  destruct Hxs as [|x xs Hx Hxs]; [by constructor|].
  rewrite fmap_cons. simpl. constructor; [|by apply IH].
  apply (tensor_all_tmap (λ v, f32_is_finite v = true)); [|done].
  intros u Hu. apply f32_mul_zero; [by apply relu_nonpos|done].
Qed.

(** C3, amended.  For a fusion unit whose weights are not NaN, called on N
    feature maps that have one shape once the last is resized, the
    denominator by which [FastFusion.call] divides, EPSILON plus the sum of
    the activated weights, is at least EPSILON; it is neither zero nor NaN.
    In the all-zero and all-negative configurations it is EPSILON itself
    and, when the inputs hold finite numbers, every entry of the quotient
    is a zero: neither infinite nor NaN. *)
Theorem FastFusion_call_denominator (self : FastFusion) (inputs : loc) xs
    (h : gmap nat (list Tensor)) b hh ww c :
  h !! inputs = Some xs →
  1 ≤ length xs → length xs = size self → length (w self) = size self →
  Forall feature_map xs →
  1 ≤ b → 1 ≤ hh → 1 ≤ ww →
  Forall (has_shape b hh ww c) (aligned_inputs self xs) →
  Forall (λ v, f32_is_nan v = false) (w self) →
  let a := relu <$> w self in
  let w_sum := f32_add EPSILON (tf_reduce_sum a) in
  let weighted_sum := tensor_sum (zip_with tscale a (aligned_inputs self xs)) in
  value (FastFusion_call self inputs h) =
    Ok (tmap relu (bn_fwd (bn self) (conv_fwd (conv self)
          (tdiv weighted_sum w_sum)))) ∧
  f32_leb EPSILON w_sum = true ∧
  f32_is_zero w_sum = false ∧ f32_is_nan w_sum = false ∧
  (Forall (λ v, f32_leb v f32_zero = true) (w self) →
   w_sum = EPSILON ∧
   (Forall (tensor_all (λ v, f32_is_finite v = true))
      (aligned_inputs self xs) →
    tensor_all (λ v, f32_is_zero v = true) (tdiv weighted_sum w_sum))).
Proof.
  intros Hl Hn Hlen Hw _ Hb Hh Hww Hs Hnan a w_sum weighted_sum.
  assert (Hge : f32_leb EPSILON w_sum = true) by (by apply w_sum_ge_EPSILON).
  destruct (f32_leb_EPSILON_inv _ Hge) as [Hz Hnn].
  split_and!; try done.
  - rewrite (FastFusion_call_aligned self inputs xs h [b; hh; ww; c]);
      [done|done|lia..|].
    by apply Forall_take, Forall_has_shape_tshape.
  - intros Hneg.
    assert (Heq : w_sum = EPSILON) by (by apply w_sum_nonpos).
    split; [done|]. intros Hfin. rewrite Heq.
    apply (tensor_all_tmap (λ v, f32_is_zero v = true)).
    + intros v. apply f32_div_zero_EPSILON.
    + by apply tensor_all_zero_sum, zero_weights_scaled.
Qed.




Lemma aligned_inputs_lookup_ne (self : FastFusion) xs i :
  i ≠ length xs - 1 → aligned_inputs self xs !! i = xs !! i.
Proof.
  intros Hi. unfold aligned_inputs. destruct xs as [|x xs]; [done|].
  destruct (last (x :: xs)); [|done]. by apply list_lookup_insert_ne.
Qed.

Lemma aligned_inputs_lookup_last (self : FastFusion) xs first lastx :
  head xs = Some first → last xs = Some lastx →
  aligned_inputs self xs !! (length xs - 1) =
    Some (Resize_call (resize self) lastx (tshape first)).
Proof.
  intros Hhd Hlast. unfold aligned_inputs. destruct xs as [|x xs]; [done|].
  injection Hhd as ->. rewrite Hlast. apply list_lookup_insert_eq. simpl. lia.
Qed.

(** C7, amended.  A call of [FastFusion.call] that returns has replaced the
    last entry of the caller's list by the resized last map; the list keeps
    its length and its other entries, and no other list of the heap is
    changed. *)
Theorem FastFusion_call_effect (self : FastFusion) (inputs : loc) xs
    (h h' : gmap nat (list Tensor)) out :
  h !! inputs = Some xs →
  FastFusion_call self inputs h = Ok (out, h') →
  ∃ first lastx xs',
    head xs = Some first ∧ last xs = Some lastx ∧
    h' !! inputs = Some xs' ∧
    length xs' = length xs ∧
    xs' !! (length xs - 1) =
      Some (Resize_call (resize self) lastx (tshape first)) ∧
    (∀ i, i ≠ length xs - 1 → xs' !! i = xs !! i) ∧
    (∀ l, l ≠ inputs → h' !! l = h !! l).
Proof.
  intros Hl Hcall. rewrite (FastFusion_call_eval self inputs xs h Hl) in Hcall.
  destruct (FastFusion_eval self xs) as [[out' xs']|e] eqn:Hev; [|done].
  injection Hcall as -> <-.
  apply FastFusion_eval_inputs in Hev as Hxs'. subst xs'.
  destruct xs as [|first rest] eqn:Hxs.
  { unfold FastFusion_eval in Hev. by rewrite py_getitem_nil in Hev. }
  rewrite <- Hxs in *.
  assert (Hhd : head xs = Some first) by (by rewrite Hxs).
  destruct (proj2 (last_is_Some xs)) as [lastx Hlast]; [by rewrite Hxs|].
  exists first, lastx, (aligned_inputs self xs). split_and!; try done.
  - apply lookup_insert_eq.
  - apply aligned_inputs_length.
  - by apply aligned_inputs_lookup_last.
  - intros i Hi. by apply aligned_inputs_lookup_ne.
  - intros l Hne. by apply lookup_insert_ne.
Qed.

Lemma Resize_call_has_shape (self : Resize) images b h0 w0 c tb th tw tc :
  image_resize_ok → Conv_ok (pixel_wise self) →
  has_shape b h0 w0 c images → 1 ≤ h0 → 1 ≤ w0 → 1 ≤ th → 1 ≤ tw →
  has_shape b th tw (conv_filters (pixel_wise self))
    (Resize_call self images [tb; th; tw; tc]).
Proof.
  intros Hresize Hconv Him Hh0 Hw0 Hth Htw. unfold Resize_call.
  apply (Hconv b th tw c). change (py_slice [tb; th; tw; tc] 1 3) with [th; tw].
  by apply (Hresize b h0 w0 c th tw).
Qed.

Lemma aligned_inputs_snoc (self : FastFusion) first front lastx :
  aligned_inputs self (first :: front ++ [lastx]) =
    first :: front ++ [Resize_call (resize self) lastx (tshape first)].
Proof.
  unfold aligned_inputs.
  rewrite (app_comm_cons front [lastx] first), last_snoc.
  rewrite length_app. simpl length.
  replace (S (length front) + 1 - 1) with (length (first :: front) + 0)
    by (simpl; lia).
  by rewrite insert_app_r.
Qed.

Lemma FastFusion_eval_shape (self : FastFusion) n f b hh ww first front
    lastx hl wl cl :
  image_resize_ok → FastFusion_ok n f self →
  S (length front + 1) = n →
  Forall (has_shape b hh ww f) (first :: front) →
  has_shape b hl wl cl lastx →
  1 ≤ b → 1 ≤ hh → 1 ≤ ww → 1 ≤ hl → 1 ≤ wl →
  ∃ out xs', FastFusion_eval self (first :: front ++ [lastx]) = Ok (out, xs') ∧
             has_shape b hh ww f out.
Proof.
  intros Hresize (Hsize & Hw & Hconv & Hfilters & Hbn & Hpw & Hpwf)
    Hn Hfront Hlast Hb Hhh Hww Hhl Hwl.
  assert (Hfirst : has_shape b hh ww f first)
    by (by apply Forall_cons in Hfront as [? _]).
  assert (Hal : Forall (has_shape b hh ww f)
                  (aligned_inputs self (first :: front ++ [lastx]))).
  { rewrite aligned_inputs_snoc, app_comm_cons. apply Forall_app. split; [done|].
    apply Forall_singleton. rewrite (has_shape_tshape b hh ww f first) by done.
    rewrite <- Hpwf. by eapply Resize_call_has_shape. }
  eexists _, _. split.
  - apply (FastFusion_eval_aligned self _ [b; hh; ww; f]).
    + lia.
    + rewrite Hsize. simpl. rewrite length_app. simpl. lia.
    + by rewrite Hw.
    + apply Forall_take. eapply Forall_impl; [exact Hal|].
      intros x Hx. by apply has_shape_tshape.
  - unfold divided_fusion. cbv zeta. apply has_shape_tmap.
    apply (Hbn b hh ww f). rewrite <- Hfilters. apply (Hconv b hh ww f).
    apply has_shape_tmap, has_shape_tensor_sum.
    + intros Hnil. apply (f_equal length) in Hnil.
      rewrite length_zip_with in Hnil.
      rewrite !length_fmap, aligned_inputs_length in Hnil.
      simpl in Hnil. lia.
    + eapply Forall_zip_with_r; [|exact Hal].
      intros c x Hx. by apply has_shape_tmap.
Qed.

Lemma fusion_shape (self : FastFusion) n f b hh ww first front lastx hl wl cl
    (h : gmap nat (list Tensor)) :
  image_resize_ok → FastFusion_ok n f self →
  S (length front + 1) = n →
  Forall (has_shape b hh ww f) (first :: front) →
  has_shape b hl wl cl lastx →
  1 ≤ b → 1 ≤ hh → 1 ≤ ww → 1 ≤ hl → 1 ≤ wl →
  ∃ out h', (alloc (first :: front ++ [lastx]) ≫= FastFusion_call self) h
              = Ok (out, h') ∧
            has_shape b hh ww f out.
Proof.
  intros Hresize Hok Hn Hfront Hlast Hb Hhh Hww Hhl Hwl.
  destruct (FastFusion_eval_shape self n f b hh ww first front lastx hl wl cl)
    as (out & xs' & Hev & Hout); try done.
  rewrite alloc_call_eval, Hev. eauto.
Qed.

Lemma fusion2_shape (self : FastFusion) f b hh ww x0 x1 hl wl cl
    (h : gmap nat (list Tensor)) :
  image_resize_ok → FastFusion_ok 2 f self →
  has_shape b hh ww f x0 → has_shape b hl wl cl x1 →
  1 ≤ b → 1 ≤ hh → 1 ≤ ww → 1 ≤ hl → 1 ≤ wl →
  ∃ out h', (alloc [x0; x1] ≫= FastFusion_call self) h = Ok (out, h') ∧
            has_shape b hh ww f out.
Proof.
  intros Hresize Hok H0 H1 Hb Hhh Hww Hhl Hwl.
  apply (fusion_shape self 2 f b hh ww x0 [] x1 hl wl cl h); try done.
  by apply Forall_singleton.
Qed.

Lemma fusion3_shape (self : FastFusion) f b hh ww x0 x1 x2 hl wl cl
    (h : gmap nat (list Tensor)) :
  image_resize_ok → FastFusion_ok 3 f self →
  has_shape b hh ww f x0 → has_shape b hh ww f x1 →
  has_shape b hl wl cl x2 →
  1 ≤ b → 1 ≤ hh → 1 ≤ ww → 1 ≤ hl → 1 ≤ wl →
  ∃ out h', (alloc [x0; x1; x2] ≫= FastFusion_call self) h = Ok (out, h') ∧
            has_shape b hh ww f out.
Proof.
  intros Hresize Hok H0 H1 H2 Hb Hhh Hww Hhl Hwl.
  apply (fusion_shape self 3 f b hh ww x0 [x1] x2 hl wl cl h); try done.
  apply Forall_cons_2; [done|]. by apply Forall_singleton.
Qed.

(** C4.  For a block set up for [features] channels and a pyramid of five
    feature maps with batch size b >= 1, [features] channels and positive
    heights and widths, [BiFPNBlock.call] returns five feature maps, and the
    i-th of them has the height and the width of the i-th input (and the same
    batch size and channel count). *)
Theorem BiFPNBlock_call_preserves_shapes (self : BiFPNBlock) features b dims
    inputs (h : gmap nat (list Tensor)) :
  image_resize_ok → BiFPNBlock_ok features self →
  1 ≤ b → Forall (λ d, 1 ≤ d.1 ∧ 1 ≤ d.2) dims → length dims = 5 →
  pyramid_ok b features dims inputs →
  ∃ outputs h',
    BiFPNBlock_call self inputs h = Ok (outputs, h') ∧
    length outputs = 5 ∧
    pyramid_ok b features dims outputs.
Proof.
  intros Hresize (H6td & H5td & H4td & H7out & H6out & H5out & H4out & H3out)
    Hb Hdims Hlen Hpyr.
  destruct dims as [|[h3 w3] [|[h4 w4] [|[h5 w5] [|[h6 w6] [|[h7 w7] [|]]]]]];
    try done.
  unfold pyramid_ok in Hpyr.
  apply Forall2_cons_inv_r in Hpyr as (P3 & in4 & HP3 & Hpyr & ->).
  apply Forall2_cons_inv_r in Hpyr as (P4 & in5 & HP4 & Hpyr & ->).
  apply Forall2_cons_inv_r in Hpyr as (P5 & in6 & HP5 & Hpyr & ->).
  apply Forall2_cons_inv_r in Hpyr as (P6 & in7 & HP6 & Hpyr & ->).
  apply Forall2_cons_inv_r in Hpyr as (P7 & in8 & HP7 & Hpyr & ->).
  apply Forall2_nil_inv_r in Hpyr as ->.
  repeat (apply Forall_cons in Hdims as [[? ?] Hdims]).
  simpl in *.
  unfold BiFPNBlock_call.
  destruct (fusion2_shape (ff_6_td self) features b h6 w6 P6 P7 h7 w7 features h)
    as (P6_td & s1 & E1 & S1); [done..|].
  rewrite (M_bind_Ok _ _ _ _ _ E1).
  destruct (fusion2_shape (ff_5_td self) features b h5 w5 P5 P6_td h6 w6 features s1)
    as (P5_td & s2 & E2 & S2); [done..|].
  rewrite (M_bind_Ok _ _ _ _ _ E2).
  destruct (fusion2_shape (ff_4_td self) features b h4 w4 P4 P5_td h5 w5 features s2)
    as (P4_td & s3 & E3 & S3); [done..|].
  rewrite (M_bind_Ok _ _ _ _ _ E3).
  destruct (fusion2_shape (ff_3_out self) features b h3 w3 P3 P4_td h4 w4 features s3)
    as (P3_out & s4 & E4 & S4); [done..|].
  rewrite (M_bind_Ok _ _ _ _ _ E4).
  destruct (fusion3_shape (ff_4_out self) features b h4 w4 P4 P4_td P3_out h3 w3 features s4)
    as (P4_out & s5 & E5 & S5); [done..|].
  rewrite (M_bind_Ok _ _ _ _ _ E5).
  destruct (fusion3_shape (ff_5_out self) features b h5 w5 P5 P5_td P4_out h4 w4 features s5)
    as (P5_out & s6 & E6 & S6); [done..|].
  rewrite (M_bind_Ok _ _ _ _ _ E6).
  destruct (fusion3_shape (ff_6_out self) features b h6 w6 P6 P6_td P5_out h5 w5 features s6)
    as (P6_out & s7 & E7 & S7); [done..|].
  rewrite (M_bind_Ok _ _ _ _ _ E7).
  destruct (fusion2_shape (ff_7_out self) features b h7 w7 P7 P6_td h6 w6 features s7)
    as (P7_out & s8 & E8 & S8); [done..|].
  rewrite (M_bind_Ok _ _ _ _ _ E8).
  eexists _, _. split; [done|]. split; [done|].
  unfold pyramid_ok.
  repeat (apply List.Forall2_cons; [done|]). apply List.Forall2_nil.
Qed.

(** C5.  For an input map and a reference map of shape (rb, rh, rw, rc),
    [Resize.call] is the convolution [pixel_wise] applied to the image
    resized to (rh, rw), in that order: the resized image has height rh and
    width rw, and the result has height rh, width rw and as many channels as
    the convolution has filters. *)
Theorem Resize_call_spec (self : Resize) images ref b h0 w0 c rb rh rw rc :
  image_resize_ok → Conv_ok (pixel_wise self) →
  has_shape b h0 w0 c images → 1 ≤ h0 → 1 ≤ w0 →
  has_shape rb rh rw rc ref → 1 ≤ rb → 1 ≤ rh → 1 ≤ rw →
  Resize_call self images (tshape ref) =
    conv_fwd (pixel_wise self) (image_resize images [rh; rw]) ∧
  has_shape b rh rw c (image_resize images [rh; rw]) ∧
  has_shape b rh rw (conv_filters (pixel_wise self))
    (Resize_call self images (tshape ref)).
Proof.
  intros Hresize Hconv Him Hh0 Hw0 Href Hrb Hrh Hrw.
  rewrite (has_shape_tshape rb rh rw rc ref) by done.
  split_and!.
  - done.
  - by apply (Hresize b h0 w0 c rh rw).
  - by eapply Resize_call_has_shape.
Qed.
End Fusion.

(** ** Stacked blocks and construction *)

Section Stack.
Context {fw : Framework}.

Lemma M_bind_assoc {A B C} (m : M A) (f : A → M B) (g : B → M C) h :
  ((m ≫= f) ≫= g) h = (m ≫= λ a, f a ≫= g) h.
Proof.
  unfold mbind, M_bind. by destruct (m h) as [[a h']|e].
Qed.

Lemma M_bind_ext {A B} (m : M A) (f g : A → M B) h :
  (∀ a h', f a h' = g a h') → (m ≫= f) h = (m ≫= g) h.
Proof.
  intros Hfg. unfold mbind, M_bind. by destruct (m h) as [[a h']|e].
Qed.

Lemma BiFPN_loop_app bs1 bs2 x h :
  BiFPN_loop (bs1 ++ bs2) x h = (BiFPN_loop bs1 x ≫= BiFPN_loop bs2) h.
Proof.
  revert x h. induction bs1 as [|b bs1 IH]; intros x h; [done|].
  simpl. rewrite M_bind_assoc. by apply M_bind_ext.
Qed.

Lemma foldl_blocks bs (m : M (list Tensor)) h :
  foldl (λ acc block, acc ≫= BiFPNBlock_call block) m bs h =
    (m ≫= BiFPN_loop bs) h.
Proof.
  revert m h. induction bs as [|b bs IH]; intros m h.
  - simpl. unfold mbind, M_bind. by destruct (m h) as [[a h']|e].
  - simpl. rewrite IH. apply M_bind_assoc.
Qed.

(** C6.  A model of two blocks gives what the model of the first block
    followed by the model of the second gives; more generally the model of
    [bs1 ++ bs2] is the model of [bs1] followed by the model of [bs2], and
    [BiFPN.call] is the composition of its blocks from left to right. *)
Theorem BiFPN_call_sequential :
  (∀ b1 b2 inputs h,
     BiFPN_call {| blocks := [b1; b2] |} inputs h =
       (BiFPN_call {| blocks := [b1] |} inputs
          ≫= BiFPN_call {| blocks := [b2] |}) h) ∧
  (∀ bs1 bs2 inputs h,
     BiFPN_call {| blocks := bs1 ++ bs2 |} inputs h =
       (BiFPN_call {| blocks := bs1 |} inputs
          ≫= BiFPN_call {| blocks := bs2 |}) h) ∧
  (∀ self inputs h,
     BiFPN_call self inputs h =
       sequential_composition (blocks self) inputs h).
Proof.
  split_and!.
  - intros b1 b2 inputs h. apply (BiFPN_loop_app [b1] [b2]).
  - intros bs1 bs2 inputs h. apply BiFPN_loop_app.
  - intros self inputs h. unfold sequential_composition.
    by rewrite foldl_blocks.
Qed.

Lemma Resize_init_raises features separable :
  Resize_init features separable = Raise TypeError.
Proof. by destruct separable. Qed.

Lemma SeparableConv2D_kernel_size features k :
  SeparableConv2D [features] [("kernel_size", k)] =
    Ok (new_conv true features k).
Proof. done. Qed.

Lemma FastFusion_init_raises size features :
  FastFusion_init size features = Raise TypeError.
Proof.
  unfold FastFusion_init.
  by rewrite Resize_init_raises, SeparableConv2D_kernel_size.
Qed.

Lemma BiFPNBlock_init_raises features :
  BiFPNBlock_init features = Raise TypeError.
Proof. unfold BiFPNBlock_init. by rewrite FastFusion_init_raises. Qed.

Lemma BiFPN_init_nonpositive features n :
  (n ≤ 0)%Z → BiFPN_init features n = Ok {| blocks := [] |}.
Proof.
  intros Hn. unfold BiFPN_init, py_range.
  by replace (Z.to_nat n) with 0 by lia.
Qed.

Lemma BiFPN_init_positive features n :
  (1 ≤ n)%Z → BiFPN_init features n = Raise TypeError.
Proof.
  intros Hn. unfold BiFPN_init, py_range.
  destruct (Z.to_nat n) as [|k] eqn:Hk; [lia|].
  cbn [seq mapM]. by rewrite BiFPNBlock_init_raises.
Qed.

(** C8, amended.  Constructing a [Resize] raises [TypeError]: the keyword
    [kernel] leaves the required [kernel_size] unbound.  So do the
    constructors of [FastFusion] and [BiFPNBlock], and that of [BiFPN] when
    [n_blocks] is at least 1.  With [n_blocks] zero or negative no block is
    constructed and [BiFPN] is constructed, with no blocks. *)
Theorem constructors_raise (features size : nat) (separable : bool)
    (p : positive) :
  Resize_init features separable = Raise TypeError ∧
  FastFusion_init size features = Raise TypeError ∧
  BiFPNBlock_init features = Raise TypeError ∧
  BiFPN_init features (Z.pos p) = Raise TypeError ∧
  BiFPN_init features 0 = Ok {| blocks := [] |} ∧
  BiFPN_init features (Z.neg p) = Ok {| blocks := [] |}.
Proof.
  split_and!.
  - apply Resize_init_raises.
  - apply FastFusion_init_raises.
  - apply BiFPNBlock_init_raises.
  - apply BiFPN_init_positive. lia.
  - by apply BiFPN_init_nonpositive.
  - apply BiFPN_init_nonpositive. lia.
Qed.

(** C10.  [BiFPN(features, n_blocks=0)] has no blocks, and the forward pass
    of a model without blocks returns its input, and leaves the heap as it
    is. *)
Theorem BiFPN_no_blocks_identity (features : nat) (inputs : list Tensor)
    (h : gmap nat (list Tensor)) :
  BiFPN_init features 0 = Ok {| blocks := [] |} ∧
  BiFPN_call {| blocks := [] |} inputs h = Ok (inputs, h).
Proof. split; [by apply BiFPN_init_nonpositive|done]. Qed.
End Stack.

(** ** Concrete runs *)

Lemma two_inputs_feature_maps : Forall feature_map two_inputs.
Proof. repeat constructor; apply feature_map_const; lia. Qed.

Lemma spread_inputs_feature_maps : Forall feature_map spread_inputs.
Proof. repeat constructor; apply feature_map_const; lia. Qed.


Lemma FastFusion_call_formula_witness :
  value (FastFusion_call (fw:=small_framework) (small_fusion 2 1) 0
           {[0 := two_inputs]}) =
    Ok (divided_fusion (small_fusion 2 1)
          (aligned_inputs (fw:=small_framework) (small_fusion 2 1)
             two_inputs)).
Proof.
  apply (FastFusion_call_formula (fw:=small_framework) (small_fusion 2 1) 0
           two_inputs {[0 := two_inputs]} 1 2 2 1).
  - reflexivity.
  - simpl. lia.
  - reflexivity.
  - reflexivity.
  - apply two_inputs_feature_maps.
  - lia.
  - lia.
  - lia.
  - vm_compute. repeat constructor.
Defined.

(** With the weights 1 and 1, a map of ones and a map of fives, the code
    returns 12582849 * 2^-22 in every entry; normalising each weight first
    gives 12582850 * 2^-22. *)
Lemma FastFusion_call_not_normalized_first :
  value (FastFusion_call (fw:=small_framework) (uniform_fusion (f32 1 0) 2 1)
           0 {[0 := spread_inputs]}) =
    Ok (const_tensor 1 2 2 1 (S754_finite false 12582849 (-22))) ∧
  FastFusion_spec (fw:=small_framework) (uniform_fusion (f32 1 0) 2 1)
      spread_inputs =
    const_tensor 1 2 2 1 (S754_finite false 12582850 (-22)) ∧
  value (FastFusion_call (fw:=small_framework) (uniform_fusion (f32 1 0) 2 1)
           0 {[0 := spread_inputs]}) ≠
    Ok (FastFusion_spec (fw:=small_framework) (uniform_fusion (f32 1 0) 2 1)
          spread_inputs).
Proof.
  assert (Hcall :
    value (FastFusion_call (fw:=small_framework)
             (uniform_fusion (f32 1 0) 2 1) 0 {[0 := spread_inputs]}) =
      Ok (const_tensor 1 2 2 1 (S754_finite false 12582849 (-22)))).
  { rewrite (FastFusion_call_aligned (fw:=small_framework)
               (uniform_fusion (f32 1 0) 2 1) 0 spread_inputs _ [1; 2; 2; 1]).
    - reflexivity.
    - reflexivity.
    - simpl. lia.
    - simpl. lia.
    - reflexivity.
    - vm_compute. repeat constructor. }
  assert (Hspec :
    FastFusion_spec (fw:=small_framework) (uniform_fusion (f32 1 0) 2 1)
        spread_inputs =
      const_tensor 1 2 2 1 (S754_finite false 12582850 (-22))).
  { reflexivity. }
  split_and!; [done..|]. rewrite Hcall, Hspec. discriminate.
Qed.

Lemma FastFusion_call_denominator_witness :
  let self := uniform_fusion (f32 (-1) (-2)) 2 1 in
  let a := relu <$> w self in
  let w_sum := f32_add EPSILON (tf_reduce_sum a) in
  let weighted_sum :=
    tensor_sum (zip_with tscale a
                  (aligned_inputs (fw:=small_framework) self two_inputs)) in
  value (FastFusion_call (fw:=small_framework) self 0 {[0 := two_inputs]}) =
    Ok (tmap relu (bn_fwd (bn self) (conv_fwd (conv self)
          (tdiv weighted_sum w_sum)))) ∧
  f32_leb EPSILON w_sum = true ∧
  f32_is_zero w_sum = false ∧ f32_is_nan w_sum = false ∧
  (Forall (λ v, f32_leb v f32_zero = true) (w self) →
   w_sum = EPSILON ∧
   (Forall (tensor_all (λ v, f32_is_finite v = true))
      (aligned_inputs (fw:=small_framework) self two_inputs) →
    tensor_all (λ v, f32_is_zero v = true) (tdiv weighted_sum w_sum))).
Proof.
  apply (FastFusion_call_denominator (fw:=small_framework)
           (uniform_fusion (f32 (-1) (-2)) 2 1) 0
           two_inputs {[0 := two_inputs]} 1 2 2 1).
  - reflexivity.
  - simpl. lia.
  - reflexivity.
  - reflexivity.
  - apply two_inputs_feature_maps.
  - lia.
  - lia.
  - lia.
  - vm_compute. repeat constructor.
  - vm_compute. repeat constructor.
Defined.

(** A weight that is NaN makes the denominator NaN, which is not at least
    EPSILON, and the output NaN; and in a zero-weight configuration an
    infinite entry of an input makes the quotient NaN. *)
Lemma FastFusion_call_denominator_nan :
  f32_leb EPSILON
    (f32_add EPSILON (tf_reduce_sum (relu <$> w (uniform_fusion S754_nan 2 1))))
    = false ∧
  value (FastFusion_call (fw:=small_framework) (uniform_fusion S754_nan 2 1)
           0 {[0 := two_inputs]}) =
    Ok (const_tensor 1 2 2 1 S754_nan) ∧
  Forall (λ v, f32_leb v f32_zero = true)
    (w (uniform_fusion (f32 (-1) (-2)) 2 1)) ∧
  value (FastFusion_call (fw:=small_framework)
           (uniform_fusion (f32 (-1) (-2)) 2 1) 0 {[0 := infinite_inputs]}) =
    Ok (const_tensor 1 2 2 1 S754_nan).
Proof.
  split_and!.
  - reflexivity.
  - rewrite (FastFusion_call_aligned (fw:=small_framework)
               (uniform_fusion S754_nan 2 1) 0 two_inputs _ [1; 2; 2; 1]).
    + reflexivity.
    + reflexivity.
    + simpl. lia.
    + simpl. lia.
    + reflexivity.
    + vm_compute. repeat constructor.
  - repeat constructor.
  - rewrite (FastFusion_call_aligned (fw:=small_framework)
               (uniform_fusion (f32 (-1) (-2)) 2 1) 0 infinite_inputs _
               [1; 2; 2; 1]).
    + reflexivity.
    + reflexivity.
    + simpl. lia.
    + simpl. lia.
    + reflexivity.
    + vm_compute. repeat constructor.
Qed.


(** [BiFPN(64, 0)] is constructed. *)
Lemma BiFPN_init_no_blocks_returns :
  BiFPN_init (fw:=small_framework) 64 0 = Ok {| blocks := [] |}.
Proof. reflexivity. Qed.

(** After a call on [two_inputs] the caller's list is another list. *)
Lemma FastFusion_call_overwrites_last_input :
  ∃ out h',
    FastFusion_call (fw:=small_framework) (small_fusion 2 1) 0
      {[0 := two_inputs]} = Ok (out, h') ∧
    h' !! 0 ≠ ({[0 := two_inputs]} : gmap nat (list Tensor)) !! 0.
Proof.
  eexists _, _. split.
  - apply (FastFusion_call_aligned (fw:=small_framework) (small_fusion 2 1) 0
             two_inputs _ [1; 2; 2; 1]).
    + reflexivity.
    + simpl. lia.
    + simpl. lia.
    + reflexivity.
    + vm_compute. repeat constructor.
  - rewrite lookup_insert_eq, lookup_singleton_eq. intros Heq.
    apply (f_equal (fmap (M:=option) (fmap (M:=list) tshape))) in Heq.
    vm_compute in Heq. discriminate.
Qed.

Lemma FastFusion_call_effect_witness :
  ∃ first lastx xs',
    head two_inputs = Some first ∧ last two_inputs = Some lastx ∧
    (<[0 := aligned_inputs (fw:=small_framework) (small_fusion 2 1) two_inputs]>
       ({[0 := two_inputs]} : gmap nat (list Tensor))) !! 0 = Some xs' ∧
    length xs' = length two_inputs ∧
    xs' !! (length two_inputs - 1) =
      Some (Resize_call (fw:=small_framework) (resize (small_fusion 2 1))
              lastx (tshape first)) ∧
    (∀ i, i ≠ length two_inputs - 1 → xs' !! i = two_inputs !! i) ∧
    (∀ l, l ≠ 0 →
       (<[0 := aligned_inputs (fw:=small_framework) (small_fusion 2 1) two_inputs]>
          ({[0 := two_inputs]} : gmap nat (list Tensor))) !! l =
       ({[0 := two_inputs]} : gmap nat (list Tensor)) !! l).
Proof.
  apply (FastFusion_call_effect (fw:=small_framework) (small_fusion 2 1) 0
           two_inputs {[0 := two_inputs]} _
           (divided_fusion (small_fusion 2 1)
              (aligned_inputs (fw:=small_framework) (small_fusion 2 1) two_inputs))).
  - reflexivity.
  - apply (FastFusion_call_aligned (fw:=small_framework) (small_fusion 2 1) 0
             two_inputs _ [1; 2; 2; 1]).
    + reflexivity.
    + simpl. lia.
    + simpl. lia.
    + reflexivity.
    + vm_compute. repeat constructor.
Defined.

Lemma small_pyramid_ok : pyramid_ok 1 1 small_dims small_pyramid.
Proof.
  unfold pyramid_ok, small_pyramid, small_dims. simpl.
  repeat (apply List.Forall2_cons; [apply has_shape_const|]).
  apply List.Forall2_nil.
Qed.

Lemma BiFPNBlock_call_preserves_shapes_witness :
  ∃ outputs h',
    BiFPNBlock_call (fw:=small_framework) (small_block 1) small_pyramid ∅ =
      Ok (outputs, h') ∧
    length outputs = 5 ∧
    pyramid_ok 1 1 small_dims outputs.
Proof.
  apply (BiFPNBlock_call_preserves_shapes (fw:=small_framework)
           (small_block 1) 1 1 small_dims small_pyramid ∅).
  - apply nearest_resize_ok.
  - apply small_block_ok.
  - lia.
  - unfold small_dims. repeat (apply Forall_cons_2; [simpl; lia|]). apply Forall_nil_2.
  - reflexivity.
  - apply small_pyramid_ok.
Defined.

Lemma Resize_call_spec_witness :
  Resize_call (fw:=small_framework) (resize (small_fusion 2 1))
      (const_tensor 1 1 1 1 (f32 3 0)) (tshape (const_tensor 1 2 2 1 (f32 1 0))) =
    conv_fwd (pixel_wise (resize (small_fusion 2 1)))
      (image_resize (Framework:=small_framework)
         (const_tensor 1 1 1 1 (f32 3 0)) [2; 2]) ∧
  has_shape 1 2 2 1
    (image_resize (Framework:=small_framework)
       (const_tensor 1 1 1 1 (f32 3 0)) [2; 2]) ∧
  has_shape 1 2 2 (conv_filters (pixel_wise (resize (small_fusion 2 1))))
    (Resize_call (fw:=small_framework) (resize (small_fusion 2 1))
       (const_tensor 1 1 1 1 (f32 3 0)) (tshape (const_tensor 1 2 2 1 (f32 1 0)))).
Proof.
  apply (Resize_call_spec (fw:=small_framework) (resize (small_fusion 2 1))
           (const_tensor 1 1 1 1 (f32 3 0)) (const_tensor 1 2 2 1 (f32 1 0))
           1 1 1 1 1 2 2 1).
  - apply nearest_resize_ok.
  - apply ones_conv_ok.
  - apply has_shape_const.
  - lia.
  - lia.
  - apply has_shape_const.
  - lia.
  - lia.
  - lia.
Defined.

(** * Further properties of the module *)

(** ** Failures of a fusion unit *)

Lemma mapM_scaled_short (a : list float32) (xs : list Tensor) k n :
  k ≤ length xs → length xs < k + n → k + n ≤ length a →
  mapM (λ i,
      wi ← tf_getitem a i;
      xi ← py_getitem xs (Z.of_nat i);
      Ok (tscale wi xi)) (seq k n) = Raise IndexError.
Proof.
  revert k. induction n as [|n IH]; intros k Hk Hlen Ha; [lia|].
  destruct (lookup_lt_is_Some_2 a k) as [wi Hwi]; [lia|].
  simpl seq. simpl mapM. unfold tf_getitem. rewrite Hwi. simpl.
  destruct (decide (k = length xs)) as [->|Hne].
  - by rewrite py_getitem_ge.
  - destruct (lookup_lt_is_Some_2 xs k) as [xi Hxi]; [lia|].
    rewrite (py_getitem_nat _ _ _ Hxi). simpl. by rewrite IH by lia.
Qed.

Section Failures.
Context {fw : Framework}.

(** X1.  [FastFusion.call] on an empty list raises [IndexError]: the list
    has no last entry to resize. *)
Theorem FastFusion_call_no_inputs (self : FastFusion) (inputs : loc)
    (h : gmap nat (list Tensor)) :
  h !! inputs = Some [] → FastFusion_call self inputs h = Raise IndexError.
Proof.
  intros Hl. rewrite (FastFusion_call_eval self inputs [] h Hl).
  unfold FastFusion_eval. by rewrite py_getitem_nil.
Qed.

Lemma FastFusion_eval_too_few (self : FastFusion) xs :
  1 ≤ length xs → length xs < size self → length (w self) = size self →
  FastFusion_eval self xs = Raise IndexError.
Proof.
  intros Hne Hlen Hw.
  destruct xs as [|first rest] eqn:Hxs; [simpl in Hne; lia|].
  rewrite <- Hxs in *.
  assert (Hhd : head xs = Some first) by (by rewrite Hxs).
  destruct (proj2 (last_is_Some xs)) as [lastx Hlast]; [by rewrite Hxs|].
  unfold FastFusion_eval.
  rewrite (py_getitem_last _ _ Hlast). simpl.
  rewrite (py_getitem_head _ _ Hhd). simpl.
  rewrite (aligned_inputs_setitem self xs first lastx Hhd Hlast). simpl.
  unfold tf_range. rewrite mapM_scaled_short; [done|lia|..].
  - rewrite aligned_inputs_length. lia.
  - rewrite length_fmap. simpl. lia.
Qed.

(** X2.  [FastFusion.call] with fewer feature maps than the unit has
    weights never returns: it raises (the weighted sum indexes the list up
    to [size - 1]). *)
Theorem FastFusion_call_too_few_inputs (self : FastFusion) (inputs : loc) xs
    (h : gmap nat (list Tensor)) :
  h !! inputs = Some xs →
  length xs < size self → length (w self) = size self →
  raises (FastFusion_call self inputs h).
Proof.
  intros Hl Hlen Hw. rewrite (FastFusion_call_eval self inputs xs h Hl).
  destruct xs as [|x xs'] eqn:Hxs.
  - unfold FastFusion_eval. by rewrite py_getitem_nil.
  - rewrite <- Hxs in *. rewrite FastFusion_eval_too_few; [done| |done..].
    rewrite Hxs. simpl. lia.
Qed.
End Failures.

(** ** What a block does to the heap and what it returns *)


Section Blocks.
Context {fw : Framework}.

Lemma M_bind_inv {A B} (m : M A) (f : A → M B) h r :
  (m ≫= f) h = Ok r → ∃ a h1, m h = Ok (a, h1) ∧ f a h1 = Ok r.
Proof.
  unfold mbind, M_bind. destruct (m h) as [[a h1]|e]; [|done]. eauto.
Qed.

Lemma FastFusion_eval_relu (self : FastFusion) xs out xs' :
  FastFusion_eval self xs = Ok (out, xs') → ∃ t, out = tmap relu t.
Proof.
  unfold FastFusion_eval. intros Hev.
  destruct (py_getitem xs (-1)) as [lastx|e]; simpl in Hev; [|done].
  destruct (py_getitem xs 0) as [first|e]; simpl in Hev; [|done].
  destruct (py_setitem xs (-1) _) as [xs1|e]; simpl in Hev; [|done].
  destruct (mapM _ _) as [elems|e]; simpl in Hev; [|done].
  destruct (tf_stack elems) as [st|e]; simpl in Hev; [|done].
  destruct (tf_transpose_10234 st) as [tr|e]; simpl in Hev; [|done].
  injection Hev as <- _. eauto.
Qed.

(** X3.  No entry of a feature map returned by [FastFusion.call] is less
    than zero: an entry is a zero, a positive number, plus infinity or
    NaN. *)
Theorem FastFusion_call_no_negative_entry (self : FastFusion) (inputs : loc) xs
    (h h' : gmap nat (list Tensor)) out :
  h !! inputs = Some xs →
  FastFusion_call self inputs h = Ok (out, h') →
  tensor_all (λ v, f32_ltb v f32_zero = false) out.
Proof.
  intros Hl Hcall. rewrite (FastFusion_call_eval self inputs xs h Hl) in Hcall.
  destruct (FastFusion_eval self xs) as [[out' xs']|e] eqn:Hev; [|done].
  injection Hcall as -> _.
  apply FastFusion_eval_relu in Hev as [t ->].
  apply tensor_all_tmap_any, relu_not_negative.
Qed.

(** One fusion of a block: a new list, then the call. *)
Lemma fusion_inv (self : FastFusion) xs (h h' : gmap nat (list Tensor)) out :
  (alloc xs ≫= FastFusion_call self) h = Ok (out, h') →
  tensor_all (λ v, f32_ltb v f32_zero = false) out ∧
  h !! fresh (dom h) = None ∧
  ∃ xs', h' = <[fresh (dom h) := xs']> h.
Proof.
  rewrite alloc_call_eval. intros Hev.
  destruct (FastFusion_eval self xs) as [[out' xs']|e] eqn:Hev'; [|done].
  injection Hev as -> <-.
  split_and!.
  - apply FastFusion_eval_relu in Hev' as [t ->].
    apply tensor_all_tmap_any, relu_not_negative.
  - apply not_elem_of_dom, is_fresh.
  - exists xs'. apply insert_insert_eq.
Qed.

Lemma fusion_frame (self : FastFusion) xs (h h' : gmap nat (list Tensor)) out :
  (alloc xs ≫= FastFusion_call self) h = Ok (out, h') →
  h ⊆ h' ∧ base.size h' = S (base.size h).
Proof.
  intros Hf. apply fusion_inv in Hf as (_ & Hfresh & xs' & ->).
  split; [by apply insert_subseteq|by apply map_size_insert_None].
Qed.

(** The steps of a block that returns. *)
Lemma BiFPNBlock_call_inv (self : BiFPNBlock) inputs
    (h h' : gmap nat (list Tensor)) outputs :
  BiFPNBlock_call self inputs h = Ok (outputs, h') →
  ∃ P3 P4 P5 P6 P7 P6_td P5_td P4_td P3_out P4_out P5_out P6_out P7_out
    h1 h2 h3 h4 h5 h6 h7,
    inputs = [P3; P4; P5; P6; P7] ∧
    outputs = [P3_out; P4_out; P5_out; P6_out; P7_out] ∧
    (alloc [P6; P7] ≫= FastFusion_call (ff_6_td self)) h = Ok (P6_td, h1) ∧
    (alloc [P5; P6_td] ≫= FastFusion_call (ff_5_td self)) h1 = Ok (P5_td, h2) ∧
    (alloc [P4; P5_td] ≫= FastFusion_call (ff_4_td self)) h2 = Ok (P4_td, h3) ∧
    (alloc [P3; P4_td] ≫= FastFusion_call (ff_3_out self)) h3 = Ok (P3_out, h4) ∧
    (alloc [P4; P4_td; P3_out] ≫= FastFusion_call (ff_4_out self)) h4
      = Ok (P4_out, h5) ∧
    (alloc [P5; P5_td; P4_out] ≫= FastFusion_call (ff_5_out self)) h5
      = Ok (P5_out, h6) ∧
    (alloc [P6; P6_td; P5_out] ≫= FastFusion_call (ff_6_out self)) h6
      = Ok (P6_out, h7) ∧
    (alloc [P7; P6_td] ≫= FastFusion_call (ff_7_out self)) h7 = Ok (P7_out, h').
Proof.
  intros Hcall. unfold BiFPNBlock_call in Hcall.
  destruct inputs as [|P3 [|P4 [|P5 [|P6 [|P7 [|]]]]]]; try done.
  apply M_bind_inv in Hcall as (P6_td & h1 & E1 & Hcall).
  apply M_bind_inv in Hcall as (P5_td & h2 & E2 & Hcall).
  apply M_bind_inv in Hcall as (P4_td & h3 & E3 & Hcall).
  apply M_bind_inv in Hcall as (P3_out & h4 & E4 & Hcall).
  apply M_bind_inv in Hcall as (P4_out & h5 & E5 & Hcall).
  apply M_bind_inv in Hcall as (P5_out & h6 & E6 & Hcall).
  apply M_bind_inv in Hcall as (P6_out & h7 & E7 & Hcall).
  apply M_bind_inv in Hcall as (P7_out & h8 & E8 & Hcall).
  injection Hcall as <- <-.
  exists P3, P4, P5, P6, P7, P6_td, P5_td, P4_td, P3_out, P4_out, P5_out,
    P6_out, P7_out, h1, h2, h3, h4, h5, h6, h7.
  by split_and!.
Qed.

Lemma block_wrong_length (self : BiFPNBlock) inputs
    (h : gmap nat (list Tensor)) :
  length inputs ≠ 5 → BiFPNBlock_call self inputs h = Raise ValueError.
Proof.
  intros Hlen. unfold BiFPNBlock_call.
  by destruct inputs as [|P3 [|P4 [|P5 [|P6 [|P7 [|]]]]]].
Qed.

(** X4.  [BiFPNBlock.call] on a sequence that does not have exactly five
    feature maps raises [ValueError]. *)
Theorem BiFPNBlock_call_wrong_length (self : BiFPNBlock) inputs
    (h : gmap nat (list Tensor)) :
  length inputs ≠ 5 → BiFPNBlock_call self inputs h = Raise ValueError.
Proof. apply block_wrong_length. Qed.

Lemma block_returns_five (self : BiFPNBlock) inputs
    (h h' : gmap nat (list Tensor)) outputs :
  BiFPNBlock_call self inputs h = Ok (outputs, h') →
  length inputs = 5 ∧ length outputs = 5 ∧
  Forall (tensor_all (λ v, f32_ltb v f32_zero = false)) outputs.
Proof.
  intros Hcall.
  apply BiFPNBlock_call_inv in Hcall
    as (P3 & P4 & P5 & P6 & P7 & P6_td & P5_td & P4_td & P3_out & P4_out &
        P5_out & P6_out & P7_out & h1 & h2 & h3 & h4 & h5 & h6 & h7 &
        -> & -> & E1 & E2 & E3 & E4 & E5 & E6 & E7 & E8).
  split_and!; [done..|].
  apply fusion_inv in E4 as [N4 _], E5 as [N5 _], E6 as [N6 _],
    E7 as [N7 _], E8 as [N8 _].
  repeat (apply Forall_cons_2; [done|]). apply Forall_nil_2.
Qed.

(** X5.  When [BiFPNBlock.call] returns, it was given exactly five
    feature maps and it returns exactly five, none of whose entries is less
    than zero. *)
Theorem BiFPNBlock_call_returns_five (self : BiFPNBlock) inputs
    (h h' : gmap nat (list Tensor)) outputs :
  BiFPNBlock_call self inputs h = Ok (outputs, h') →
  length inputs = 5 ∧ length outputs = 5 ∧
  Forall (tensor_all (λ v, f32_ltb v f32_zero = false)) outputs.
Proof. apply block_returns_five. Qed.

Lemma block_frame (self : BiFPNBlock) inputs
    (h h' : gmap nat (list Tensor)) outputs :
  BiFPNBlock_call self inputs h = Ok (outputs, h') →
  h ⊆ h' ∧ base.size h' = base.size h + 8.
Proof.
  intros Hcall.
  apply BiFPNBlock_call_inv in Hcall
    as (P3 & P4 & P5 & P6 & P7 & P6_td & P5_td & P4_td & P3_out & P4_out &
        P5_out & P6_out & P7_out & h1 & h2 & h3 & h4 & h5 & h6 & h7 &
        -> & -> & E1 & E2 & E3 & E4 & E5 & E6 & E7 & E8).
  apply fusion_frame in E1 as [F1 Z1], E2 as [F2 Z2], E3 as [F3 Z3],
    E4 as [F4 Z4], E5 as [F5 Z5], E6 as [F6 Z6], E7 as [F7 Z7], E8 as [F8 Z8].
  split; [|lia].
  do 7 (etrans; [eassumption|]). done.
Qed.

(** X6.  [BiFPNBlock.call] never changes or removes a list that existed
    before the call: the heap it leaves extends the heap it found, by
    exactly the eight lists it builds for its fusions. *)
Theorem BiFPNBlock_call_frame (self : BiFPNBlock) inputs
    (h h' : gmap nat (list Tensor)) outputs :
  BiFPNBlock_call self inputs h = Ok (outputs, h') →
  h ⊆ h' ∧ base.size h' = base.size h + 8.
Proof. apply block_frame. Qed.

Lemma BiFPN_loop_frame bs x (h h' : gmap nat (list Tensor)) outputs :
  BiFPN_loop bs x h = Ok (outputs, h') →
  h ⊆ h' ∧ base.size h' = base.size h + 8 * length bs.
Proof.
  revert x h. induction bs as [|b bs IH]; intros x h Hloop.
  - injection Hloop as _ <-. split; [done|simpl; lia].
  - simpl in Hloop. apply M_bind_inv in Hloop as (x' & h1 & Hb & Hloop).
    apply block_frame in Hb as [F1 Z1].
    apply IH in Hloop as [F2 Z2]. split; [by etrans|simpl; lia].
Qed.

(** X7.  [BiFPN.call] never changes or removes a list that existed before
    the call; the heap grows by eight lists per block. *)
Theorem BiFPN_call_frame (self : BiFPN) inputs
    (h h' : gmap nat (list Tensor)) outputs :
  BiFPN_call self inputs h = Ok (outputs, h') →
  h ⊆ h' ∧ base.size h' = base.size h + 8 * length (blocks self).
Proof. apply BiFPN_loop_frame. Qed.

(** X8.  [BiFPN.call] of a model with at least one block, on a sequence
    that does not have exactly five feature maps, raises [ValueError]. *)
Theorem BiFPN_call_wrong_length (self : BiFPN) inputs
    (h : gmap nat (list Tensor)) :
  blocks self ≠ [] → length inputs ≠ 5 →
  BiFPN_call self inputs h = Raise ValueError.
Proof.
  intros Hbs Hlen. unfold BiFPN_call.
  destruct (blocks self) as [|b bs]; [done|].
  simpl. unfold mbind, M_bind. by rewrite block_wrong_length.
Qed.

Lemma BiFPN_loop_length bs x (h h' : gmap nat (list Tensor)) outputs :
  bs ≠ [] → BiFPN_loop bs x h = Ok (outputs, h') →
  length x = 5 ∧ length outputs = 5 ∧
  Forall (tensor_all (λ v, f32_ltb v f32_zero = false)) outputs.
Proof.
  revert x h. induction bs as [|b bs IH]; intros x h Hne Hloop; [done|].
  simpl in Hloop. apply M_bind_inv in Hloop as (x' & h1 & Hb & Hloop).
  apply block_returns_five in Hb as (Hx & Hx' & Hpos).
  split; [done|]. destruct bs as [|b' bs].
  - by injection Hloop as <- _.
  - by apply IH in Hloop as (_ & ? & ?).
Qed.
End Blocks.

(** ** Shapes through a fusion unit and through a stack of blocks *)

Section Shapes.
Context {fw : Framework}.

(** X9.  A fusion unit set up for [features] channels, called on maps of
    one shape (b, h, w, features) followed by a last map of any positive
    height and width and any channel count, returns a map of shape
    (b, h, w, features): the first input's batch, height and width. *)
Theorem FastFusion_call_output_shape (self : FastFusion) n f b hh ww first
    front lastx hl wl cl (inputs : loc) (h : gmap nat (list Tensor)) :
  image_resize_ok → FastFusion_ok n f self →
  S (length front + 1) = n →
  h !! inputs = Some (first :: front ++ [lastx]) →
  Forall (has_shape b hh ww f) (first :: front) →
  has_shape b hl wl cl lastx →
  1 ≤ b → 1 ≤ hh → 1 ≤ ww → 1 ≤ hl → 1 ≤ wl →
  ∃ out h', FastFusion_call self inputs h = Ok (out, h') ∧
            has_shape b hh ww f out.
Proof.
  intros Hresize Hok Hn Hl Hfront Hlast Hb Hhh Hww Hhl Hwl.
  destruct (FastFusion_eval_shape self n f b hh ww first front lastx hl wl cl)
    as (out & xs' & Hev & Hout); try done.
  rewrite (FastFusion_call_eval self inputs _ h Hl), Hev. eauto.
Qed.

Lemma FastFusion_eval_stack (self : FastFusion) xs :
  1 ≤ size self → size self ≤ length xs → length (w self) = size self →
  tf_stack (zip_with tscale (relu <$> w self)
              (take (size self) (aligned_inputs self xs))) = Raise ShapeError →
  FastFusion_eval self xs = Raise ShapeError.
Proof.
  intros Hn Hlen Hw Hstack.
  destruct xs as [|first rest] eqn:Hxs; [simpl in Hlen; lia|].
  rewrite <- Hxs in *.
  assert (Hhd : head xs = Some first) by (by rewrite Hxs).
  destruct (proj2 (last_is_Some xs)) as [lastx Hlast]; [by rewrite Hxs|].
  unfold FastFusion_eval.
  rewrite (py_getitem_last _ _ Hlast). simpl.
  rewrite (py_getitem_head _ _ Hhd). simpl.
  rewrite (aligned_inputs_setitem self xs first lastx Hhd Hlast). simpl.
  unfold tf_range.
  rewrite (mapM_scaled (relu <$> w self) (aligned_inputs self xs) 0 (size self)).
  - simpl. rewrite !drop_0.
    rewrite (take_ge (relu <$> w self)) by (rewrite length_fmap; lia).
    by rewrite Hstack.
  - rewrite length_fmap. simpl. lia.
  - rewrite aligned_inputs_length. simpl. lia.
Qed.

(** X10.  A fusion unit set up for [features] channels and called on two
    or more maps whose first map has another channel count raises: only the
    last map is projected to [features] channels, and the maps cannot be
    stacked. *)
Theorem FastFusion_call_channel_mismatch (self : FastFusion) n f b hh ww c
    first front lastx bl hl wl cl (inputs : loc) (h : gmap nat (list Tensor)) :
  image_resize_ok → FastFusion_ok n f self →
  S (length front + 1) = n →
  h !! inputs = Some (first :: front ++ [lastx]) →
  has_shape b hh ww c first → c ≠ f →
  has_shape bl hl wl cl lastx →
  1 ≤ b → 1 ≤ hh → 1 ≤ ww → 1 ≤ bl → 1 ≤ hl → 1 ≤ wl →
  FastFusion_call self inputs h = Raise ShapeError.
Proof.
  intros Hresize (Hsize & Hw & Hconv & Hfilters & Hbn & Hpw & Hpwf)
    Hn Hl Hfirst Hc Hlast Hb Hhh Hww Hbl Hhl Hwl.
  rewrite (FastFusion_call_eval self inputs _ h Hl).
  set (xs := first :: front ++ [lastx]).
  assert (Hlen : length xs = n).
  { unfold xs. simpl. rewrite length_app. simpl. lia. }
  set (resized := Resize_call (resize self) lastx (tshape first)).
  assert (Hres : has_shape bl hh ww f resized).
  { unfold resized. rewrite (has_shape_tshape b hh ww c first) by done.
    rewrite <- Hpwf. by eapply Resize_call_has_shape. }
  assert (Hal : aligned_inputs self xs = first :: front ++ [resized])
    by apply aligned_inputs_snoc.
  rewrite FastFusion_eval_stack; [done|lia|lia|lia|].
  rewrite Hsize, <- Hlen, <- (aligned_inputs_length self xs), firstn_all, Hal.
  destruct (relu <$> w self) as [|a0 a] eqn:Ha.
  { apply (f_equal length) in Ha. rewrite length_fmap in Ha. simpl in Ha. lia. }
  assert (Hla : length a = length (front ++ [resized])).
  { apply (f_equal length) in Ha. rewrite length_fmap in Ha. simpl in Ha.
    rewrite length_app. simpl. lia. }
  destruct (lookup_lt_is_Some_2 a (length front)) as [al Hal'].
  { rewrite Hla, length_app. simpl. lia. }
  apply (tf_stack_mismatch _ (tscale a0 first) (tscale al resized)).
  - done.
  - simpl. apply list_elem_of_further.
    apply (elem_of_lookup_zip_with_2 tscale a (front ++ [resized]) al resized
             [] (length front)); [done|].
    rewrite lookup_app_r by done. by rewrite Nat.sub_diag.
  - unfold tscale. rewrite !tshape_tmap.
    rewrite (has_shape_tshape b hh ww c first) by done.
    rewrite (has_shape_tshape bl hh ww f resized) by done.
    congruence.
Qed.

(** X11.  The output of [FastFusion.call] depends only on the unit and on
    the contents of the list: not on where the list is, nor on the rest of
    the heap.  It is the unit applied to these contents. *)
Theorem FastFusion_call_local (self : FastFusion) (l1 l2 : loc) xs
    (h1 h2 : gmap nat (list Tensor)) :
  h1 !! l1 = Some xs → h2 !! l2 = Some xs →
  value (FastFusion_call self l1 h1) = value (FastFusion_call self l2 h2) ∧
  value (FastFusion_call self l1 h1) = FastFusion_apply self xs.
Proof.
  intros H1 H2.
  rewrite (FastFusion_call_eval self l1 xs h1 H1).
  rewrite (FastFusion_call_eval self l2 xs h2 H2).
  rewrite FastFusion_apply_eval.
  by destruct (FastFusion_eval self xs) as [[out xs']|e].
Qed.

(** X12.  After [FastFusion.call] has returned, a call of any unit on the
    same list object sees the list with its last entry already resized. *)
Theorem FastFusion_call_twice (self other : FastFusion) (inputs : loc) xs
    (h h' : gmap nat (list Tensor)) out :
  h !! inputs = Some xs →
  FastFusion_call self inputs h = Ok (out, h') →
  value (FastFusion_call other inputs h') =
    FastFusion_apply other (aligned_inputs self xs).
Proof.
  intros Hl Hcall.
  rewrite (FastFusion_call_eval self inputs xs h Hl) in Hcall.
  destruct (FastFusion_eval self xs) as [[out' xs']|e] eqn:Hev; [|done].
  injection Hcall as -> <-.
  apply FastFusion_eval_inputs in Hev as ->.
  rewrite (FastFusion_call_eval other inputs (aligned_inputs self xs))
    by apply lookup_insert_eq.
  rewrite FastFusion_apply_eval.
  by destruct (FastFusion_eval other _) as [[o x]|e].
Qed.

(** X13.  [BiFPNBlock._resize] gives an image with the height and width
    of the reference and the batch size and channels of its input, and
    [Resize.call] is the convolution [pixel_wise] of that image. *)
Theorem BiFPNBlock_resize_shape (self : BiFPNBlock) (r : Resize) im ref
    b h0 w0 c rb rh rw rc :
  image_resize_ok →
  has_shape b h0 w0 c im → 1 ≤ h0 → 1 ≤ w0 →
  has_shape rb rh rw rc ref → 1 ≤ rb → 1 ≤ rh → 1 ≤ rw →
  has_shape b rh rw c (BiFPNBlock_resize self im (tshape ref)) ∧
  Resize_call r im (tshape ref) =
    conv_fwd (pixel_wise r) (BiFPNBlock_resize self im (tshape ref)).
Proof.
  intros Hresize Him Hh0 Hw0 Href Hrb Hrh Hrw.
  split; [|done]. unfold BiFPNBlock_resize.
  rewrite (has_shape_tshape rb rh rw rc ref) by done.
  by apply (Hresize b h0 w0 c rh rw).
Qed.
End Shapes.

(** ** The whole stack on a valid pyramid *)

Section Stacked.
Context {fw : Framework}.

Lemma BiFPNBlock_call_shapes (self : BiFPNBlock) features b dims
    inputs (h : gmap nat (list Tensor)) :
  image_resize_ok → BiFPNBlock_ok features self →
  1 ≤ b → Forall (λ d, 1 ≤ d.1 ∧ 1 ≤ d.2) dims → length dims = 5 →
  pyramid_ok b features dims inputs →
  ∃ outputs h',
    BiFPNBlock_call self inputs h = Ok (outputs, h') ∧
    length outputs = 5 ∧
    pyramid_ok b features dims outputs.
Proof.
  intros Hresize (H6td & H5td & H4td & H7out & H6out & H5out & H4out & H3out)
    Hb Hdims Hlen Hpyr.
  destruct dims as [|[h3 w3] [|[h4 w4] [|[h5 w5] [|[h6 w6] [|[h7 w7] [|]]]]]];
    try done.
  unfold pyramid_ok in Hpyr.
  apply Forall2_cons_inv_r in Hpyr as (P3 & in4 & HP3 & Hpyr & ->).
  apply Forall2_cons_inv_r in Hpyr as (P4 & in5 & HP4 & Hpyr & ->).
  apply Forall2_cons_inv_r in Hpyr as (P5 & in6 & HP5 & Hpyr & ->).
  apply Forall2_cons_inv_r in Hpyr as (P6 & in7 & HP6 & Hpyr & ->).
  apply Forall2_cons_inv_r in Hpyr as (P7 & in8 & HP7 & Hpyr & ->).
  apply Forall2_nil_inv_r in Hpyr as ->.
  repeat (apply Forall_cons in Hdims as [[? ?] Hdims]).
  simpl in *.
  unfold BiFPNBlock_call.
  destruct (fusion2_shape (ff_6_td self) features b h6 w6 P6 P7 h7 w7 features h)
    as (P6_td & s1 & E1 & S1); [done..|].
  rewrite (M_bind_Ok _ _ _ _ _ E1).
  destruct (fusion2_shape (ff_5_td self) features b h5 w5 P5 P6_td h6 w6 features s1)
    as (P5_td & s2 & E2 & S2); [done..|].
  rewrite (M_bind_Ok _ _ _ _ _ E2).
  destruct (fusion2_shape (ff_4_td self) features b h4 w4 P4 P5_td h5 w5 features s2)
    as (P4_td & s3 & E3 & S3); [done..|].
  rewrite (M_bind_Ok _ _ _ _ _ E3).
  destruct (fusion2_shape (ff_3_out self) features b h3 w3 P3 P4_td h4 w4 features s3)
    as (P3_out & s4 & E4 & S4); [done..|].
  rewrite (M_bind_Ok _ _ _ _ _ E4).
  destruct (fusion3_shape (ff_4_out self) features b h4 w4 P4 P4_td P3_out h3 w3 features s4)
    as (P4_out & s5 & E5 & S5); [done..|].
  rewrite (M_bind_Ok _ _ _ _ _ E5).
  destruct (fusion3_shape (ff_5_out self) features b h5 w5 P5 P5_td P4_out h4 w4 features s5)
    as (P5_out & s6 & E6 & S6); [done..|].
  rewrite (M_bind_Ok _ _ _ _ _ E6).
  destruct (fusion3_shape (ff_6_out self) features b h6 w6 P6 P6_td P5_out h5 w5 features s6)
    as (P6_out & s7 & E7 & S7); [done..|].
  rewrite (M_bind_Ok _ _ _ _ _ E7).
  destruct (fusion2_shape (ff_7_out self) features b h7 w7 P7 P6_td h6 w6 features s7)
    as (P7_out & s8 & E8 & S8); [done..|].
  rewrite (M_bind_Ok _ _ _ _ _ E8).
  eexists _, _. split; [done|]. split; [done|].
  unfold pyramid_ok.
  repeat (apply List.Forall2_cons; [done|]). apply List.Forall2_nil.
Qed.

Lemma BiFPN_call_shapes (self : BiFPN) features b dims inputs
    (h : gmap nat (list Tensor)) :
  image_resize_ok → Forall (BiFPNBlock_ok features) (blocks self) →
  1 ≤ b → Forall (λ d, 1 ≤ d.1 ∧ 1 ≤ d.2) dims → length dims = 5 →
  pyramid_ok b features dims inputs →
  ∃ outputs h',
    BiFPN_call self inputs h = Ok (outputs, h') ∧
    pyramid_ok b features dims outputs.
Proof.
  intros Hresize Hblocks Hb Hdims Hlen. unfold BiFPN_call.
  revert inputs h. induction Hblocks as [|blk bs Hblk _ IH]; intros inputs h Hpyr.
  - by exists inputs, h.
  - destruct (BiFPNBlock_call_shapes blk features b dims inputs h)
      as (mid & h1 & Hcall & _ & Hmid); [done..|].
    destruct (IH mid h1 Hmid) as (outputs & h' & Hloop & Hout).
    exists outputs, h'. split; [|done].
    simpl. by rewrite (M_bind_Ok _ _ _ _ _ Hcall).
Qed.

(** X14.  For a model whose blocks are all set up for [features] channels
    and a valid pyramid, [BiFPN.call] returns, whatever the number of
    blocks, a pyramid of the same batch size, heights, widths and channel
    count. *)
Theorem BiFPN_call_preserves_shapes (self : BiFPN) features b dims inputs
    (h : gmap nat (list Tensor)) :
  image_resize_ok → Forall (BiFPNBlock_ok features) (blocks self) →
  1 ≤ b → Forall (λ d, 1 ≤ d.1 ∧ 1 ≤ d.2) dims → length dims = 5 →
  pyramid_ok b features dims inputs →
  ∃ outputs h',
    BiFPN_call self inputs h = Ok (outputs, h') ∧
    pyramid_ok b features dims outputs.
Proof. apply BiFPN_call_shapes. Qed.

(** X15.  When [BiFPN.call] of a model with at least one block returns,
    it was given exactly five feature maps and it returns exactly five,
    none of whose entries is less than zero. *)
Theorem BiFPN_call_returns_five (self : BiFPN) inputs
    (h h' : gmap nat (list Tensor)) outputs :
  blocks self ≠ [] →
  BiFPN_call self inputs h = Ok (outputs, h') →
  length inputs = 5 ∧ length outputs = 5 ∧
  Forall (tensor_all (λ v, f32_ltb v f32_zero = false)) outputs.
Proof. apply BiFPN_loop_length. Qed.
End Stacked.

(** ** Concrete runs of the further properties *)

Lemma two_inputs_call :
  FastFusion_call (fw:=small_framework) (small_fusion 2 1) 0
    {[0 := two_inputs]} =
  Ok (divided_fusion (small_fusion 2 1)
        (aligned_inputs (fw:=small_framework) (small_fusion 2 1) two_inputs),
      <[0 := aligned_inputs (fw:=small_framework) (small_fusion 2 1) two_inputs]>
        {[0 := two_inputs]}).
Proof.
  apply (FastFusion_call_aligned (fw:=small_framework) (small_fusion 2 1) 0
           two_inputs _ [1; 2; 2; 1]).
  - reflexivity.
  - simpl. lia.
  - simpl. lia.
  - reflexivity.
  - vm_compute. repeat constructor.
Qed.

Lemma two_inputs_lookup :
  ({[0 := two_inputs]} : gmap nat (list Tensor)) !! 0 = Some two_inputs.
Proof. reflexivity. Qed.

Lemma small_dims_positive : Forall (λ d : nat * nat, 1 ≤ d.1 ∧ 1 ≤ d.2) small_dims.
Proof.
  unfold small_dims. repeat (apply Forall_cons_2; [simpl; lia|]).
  apply Forall_nil_2.
Qed.

Lemma small_block_returns :
  ∃ outputs h',
    BiFPNBlock_call (fw:=small_framework) (small_block 1) small_pyramid ∅ =
      Ok (outputs, h').
Proof.
  destruct (BiFPNBlock_call_shapes (fw:=small_framework) (small_block 1) 1 1
              small_dims small_pyramid ∅) as (outputs & h' & Hcall & _).
  - apply nearest_resize_ok.
  - apply small_block_ok.
  - lia.
  - apply small_dims_positive.
  - reflexivity.
  - apply small_pyramid_ok.
  - eauto.
Qed.

Lemma small_model_ok : Forall (BiFPNBlock_ok 1) (blocks small_model).
Proof. repeat (apply Forall_cons_2; [apply small_block_ok|]). apply Forall_nil_2. Qed.

Lemma small_model_returns :
  ∃ outputs h',
    BiFPN_call (fw:=small_framework) small_model small_pyramid ∅ =
      Ok (outputs, h').
Proof.
  destruct (BiFPN_call_shapes (fw:=small_framework) small_model 1 1
              small_dims small_pyramid ∅) as (outputs & h' & Hcall & _).
  - apply nearest_resize_ok.
  - apply small_model_ok.
  - lia.
  - apply small_dims_positive.
  - reflexivity.
  - apply small_pyramid_ok.
  - eauto.
Qed.

Lemma FastFusion_call_no_inputs_witness :
  FastFusion_call (fw:=small_framework) (small_fusion 2 1) 0 {[0 := []]} =
    Raise IndexError.
Proof.
  apply (FastFusion_call_no_inputs (fw:=small_framework) (small_fusion 2 1) 0
           {[0 := []]}).
  reflexivity.
Defined.

Lemma FastFusion_call_too_few_inputs_witness :
  raises (FastFusion_call (fw:=small_framework) (small_fusion 3 1) 0
            {[0 := two_inputs]}).
Proof.
  apply (FastFusion_call_too_few_inputs (fw:=small_framework)
           (small_fusion 3 1) 0 two_inputs {[0 := two_inputs]}).
  - reflexivity.
  - simpl. lia.
  - reflexivity.
Defined.

Lemma FastFusion_call_no_negative_entry_witness :
  tensor_all (λ v, f32_ltb v f32_zero = false)
    (divided_fusion (small_fusion 2 1)
       (aligned_inputs (fw:=small_framework) (small_fusion 2 1) two_inputs)).
Proof.
  apply (FastFusion_call_no_negative_entry (fw:=small_framework) (small_fusion 2 1)
           0 two_inputs {[0 := two_inputs]} _ _ two_inputs_lookup
           two_inputs_call).
Defined.

Lemma BiFPNBlock_call_wrong_length_witness :
  BiFPNBlock_call (fw:=small_framework) (small_block 1) two_inputs ∅ =
    Raise ValueError.
Proof.
  apply (BiFPNBlock_call_wrong_length (fw:=small_framework) (small_block 1)
           two_inputs ∅).
  simpl. lia.
Defined.

Lemma BiFPNBlock_call_returns_five_witness :
  ∃ outputs h',
    BiFPNBlock_call (fw:=small_framework) (small_block 1) small_pyramid ∅ =
      Ok (outputs, h') ∧
    length small_pyramid = 5 ∧ length outputs = 5 ∧
    Forall (tensor_all (λ v, f32_ltb v f32_zero = false)) outputs.
Proof.
  destruct small_block_returns as (outputs & h' & Hcall).
  exists outputs, h'. split; [exact Hcall|].
  exact (BiFPNBlock_call_returns_five (fw:=small_framework) (small_block 1)
           small_pyramid ∅ h' outputs Hcall).
Defined.

Lemma BiFPNBlock_call_frame_witness :
  ∃ outputs h',
    BiFPNBlock_call (fw:=small_framework) (small_block 1) small_pyramid ∅ =
      Ok (outputs, h') ∧
    (∅ : gmap nat (list Tensor)) ⊆ h' ∧
    base.size h' = base.size (∅ : gmap nat (list Tensor)) + 8.
Proof.
  destruct small_block_returns as (outputs & h' & Hcall).
  exists outputs, h'. split; [exact Hcall|].
  exact (BiFPNBlock_call_frame (fw:=small_framework) (small_block 1)
           small_pyramid ∅ h' outputs Hcall).
Defined.

Lemma BiFPN_call_frame_witness :
  ∃ outputs h',
    BiFPN_call (fw:=small_framework) small_model small_pyramid ∅ =
      Ok (outputs, h') ∧
    (∅ : gmap nat (list Tensor)) ⊆ h' ∧
    base.size h' =
      base.size (∅ : gmap nat (list Tensor)) + 8 * length (blocks small_model).
Proof.
  destruct small_model_returns as (outputs & h' & Hcall).
  exists outputs, h'. split; [exact Hcall|].
  exact (BiFPN_call_frame (fw:=small_framework) small_model small_pyramid ∅ h'
           outputs Hcall).
Defined.

Lemma BiFPN_call_wrong_length_witness :
  BiFPN_call (fw:=small_framework) small_model two_inputs ∅ = Raise ValueError.
Proof.
  apply (BiFPN_call_wrong_length (fw:=small_framework) small_model two_inputs ∅).
  - discriminate.
  - simpl. lia.
Defined.

Lemma FastFusion_call_output_shape_witness :
  ∃ out h',
    FastFusion_call (fw:=small_framework) (small_fusion 2 1) 0
      {[0 := two_inputs]} = Ok (out, h') ∧
    has_shape 1 2 2 1 out.
Proof.
  apply (FastFusion_call_output_shape (fw:=small_framework) (small_fusion 2 1)
           2 1 1 2 2 (const_tensor 1 2 2 1 (f32 1 0)) []
           (const_tensor 1 1 1 1 (f32 3 0)) 1 1 1 0 {[0 := two_inputs]}).
  - apply nearest_resize_ok.
  - apply small_fusion_ok.
  - reflexivity.
  - reflexivity.
  - apply Forall_singleton, has_shape_const.
  - apply has_shape_const.
  - lia.
  - lia.
  - lia.
  - lia.
  - lia.
Defined.

Lemma FastFusion_call_channel_mismatch_witness :
  FastFusion_call (fw:=small_framework) (small_fusion 2 2) 0
    {[0 := two_inputs]} = Raise ShapeError.
Proof.
  apply (FastFusion_call_channel_mismatch (fw:=small_framework)
           (small_fusion 2 2) 2 2 1 2 2 1 (const_tensor 1 2 2 1 (f32 1 0)) []
           (const_tensor 1 1 1 1 (f32 3 0)) 1 1 1 1 0 {[0 := two_inputs]}).
  - apply nearest_resize_ok.
  - apply small_fusion_ok.
  - reflexivity.
  - reflexivity.
  - apply has_shape_const.
  - lia.
  - apply has_shape_const.
  - lia.
  - lia.
  - lia.
  - lia.
  - lia.
  - lia.
Defined.

Lemma FastFusion_call_local_witness :
  value (FastFusion_call (fw:=small_framework) (small_fusion 2 1) 0
           {[0 := two_inputs]}) =
    value (FastFusion_call (fw:=small_framework) (small_fusion 2 1) 7
             {[7 := two_inputs; 3 := three_inputs]}) ∧
  value (FastFusion_call (fw:=small_framework) (small_fusion 2 1) 0
           {[0 := two_inputs]}) =
    FastFusion_apply (fw:=small_framework) (small_fusion 2 1) two_inputs.
Proof.
  apply (FastFusion_call_local (fw:=small_framework) (small_fusion 2 1) 0 7
           two_inputs {[0 := two_inputs]} {[7 := two_inputs; 3 := three_inputs]}).
  - reflexivity.
  - reflexivity.
Defined.

Lemma FastFusion_call_twice_witness :
  value (FastFusion_call (fw:=small_framework) (small_fusion 2 1) 0
           (<[0 := aligned_inputs (fw:=small_framework) (small_fusion 2 1)
                     two_inputs]> {[0 := two_inputs]})) =
    FastFusion_apply (fw:=small_framework) (small_fusion 2 1)
      (aligned_inputs (fw:=small_framework) (small_fusion 2 1) two_inputs).
Proof.
  apply (FastFusion_call_twice (fw:=small_framework) (small_fusion 2 1)
           (small_fusion 2 1) 0 two_inputs {[0 := two_inputs]} _ _
           two_inputs_lookup two_inputs_call).
Defined.

Lemma BiFPNBlock_resize_shape_witness :
  has_shape 1 2 2 1
    (BiFPNBlock_resize (fw:=small_framework) (small_block 1)
       (const_tensor 1 1 1 1 (f32 3 0)) (tshape (const_tensor 1 2 2 1 (f32 1 0)))) ∧
  Resize_call (fw:=small_framework) (resize (small_fusion 2 1))
      (const_tensor 1 1 1 1 (f32 3 0)) (tshape (const_tensor 1 2 2 1 (f32 1 0))) =
    conv_fwd (pixel_wise (resize (small_fusion 2 1)))
      (BiFPNBlock_resize (fw:=small_framework) (small_block 1)
         (const_tensor 1 1 1 1 (f32 3 0)) (tshape (const_tensor 1 2 2 1 (f32 1 0)))).
Proof.
  apply (BiFPNBlock_resize_shape (fw:=small_framework) (small_block 1)
           (resize (small_fusion 2 1)) (const_tensor 1 1 1 1 (f32 3 0))
           (const_tensor 1 2 2 1 (f32 1 0)) 1 1 1 1 1 2 2 1).
  - apply nearest_resize_ok.
  - apply has_shape_const.
  - lia.
  - lia.
  - apply has_shape_const.
  - lia.
  - lia.
  - lia.
Defined.

Lemma BiFPN_call_preserves_shapes_witness :
  ∃ outputs h',
    BiFPN_call (fw:=small_framework) small_model small_pyramid ∅ =
      Ok (outputs, h') ∧
    pyramid_ok 1 1 small_dims outputs.
Proof.
  apply (BiFPN_call_preserves_shapes (fw:=small_framework) small_model 1 1
           small_dims small_pyramid ∅).
  - apply nearest_resize_ok.
  - apply small_model_ok.
  - lia.
  - apply small_dims_positive.
  - reflexivity.
  - apply small_pyramid_ok.
Defined.

Lemma BiFPN_call_returns_five_witness :
  ∃ outputs h',
    BiFPN_call (fw:=small_framework) small_model small_pyramid ∅ =
      Ok (outputs, h') ∧
    length small_pyramid = 5 ∧ length outputs = 5 ∧
    Forall (tensor_all (λ v, f32_ltb v f32_zero = false)) outputs.
Proof.
  destruct small_model_returns as (outputs & h' & Hcall).
  exists outputs, h'. split; [exact Hcall|].
  apply (BiFPN_call_returns_five (fw:=small_framework) small_model
           small_pyramid ∅ h' outputs); [discriminate|exact Hcall].
Defined.
